(** * api-arquivos: the CRUD controllers of the record-management backend

    A shallow embedding of the three controllers

      - [src/app/Controllers/Http/HistoricoFinanceiroController.ts]
      - [src/app/Controllers/Http/HistoricoAssociadoController.ts]
      - [ArquivoAssociadoController] (third source file)

    which are one template instantiated three times: the model class, the
    validator, the name of the foreign-key column and the name of the local
    variable are the only differences.  The embedding is therefore one set of
    definitions parameterised by [entity].

    JavaScript values are modelled dynamically: an object is a finite map of
    properties together with its prototype, because the update operation
    builds an object with the spread syntax and then calls a method on it.
    Asynchronous calls that may throw are sequenced in a state-and-exception
    monad over the database table and a list of pending store faults. *)

From stdpp Require Import gmap strings list.
From Stdlib Require Import ZArith Lia.

Open Scope string_scope.
Open Scope Z_scope.

(** ** JavaScript values and objects *)

Inductive value :=
| VUndefined
| VNull
| VBool (b : bool)
| VNum (n : Z)
| VStr (s : string).

Global Instance value_eq_dec : EqDecision value.
Proof. solve_decision. Defined.

(** Truthiness, as used by [!x] and by [x ? a : b]. *)
Definition truthy (v : value) : bool :=
  match v with
  | VUndefined | VNull => false
  | VBool b => b
  | VNum n => negb (Z.eqb n 0)
  | VStr s => negb (String.eqb s "")
  end.

(** [!v] *)
Definition js_not (v : value) : value := VBool (negb (truthy v)).

(** [v ?? d] *)
Definition nullish (v d : value) : value :=
  match v with
  | VUndefined | VNull => d
  | _ => v
  end.

(** The prototype of an object decides which methods a call can find.  An
    instance of a model class inherits [save] and the accessors of its
    columns; an object literal inherits only from [Object.prototype]. *)
Inductive prototype := ModelPrototype | ObjectPrototype.

Global Instance prototype_eq_dec : EqDecision prototype.
Proof. solve_decision. Defined.

(** For an object literal [own] holds its own properties.  For a model
    instance it holds the attributes of the row, which the ORM keeps in
    [$attributes] and which the column accessors of the prototype read and
    write: the columns are not own properties of the instance. *)
Record object := mkObject {
  proto : prototype;
  own : gmap string value
}.

Global Instance object_eq_dec : EqDecision object.
Proof. solve_decision. Defined.

(** Property read [o.k]: a missing property reads as [undefined]. *)
Definition get (k : string) (o : object) : value :=
  default VUndefined (own o !! k).

(** Property write [o.k = v], in place. *)
Definition assign (k : string) (v : value) (o : object) : object :=
  mkObject (proto o) (<[k := v]> (own o)).

(** A row fetched from the table, wrapped as an instance of the model class. *)
Definition instance (r : gmap string value) : object :=
  mkObject ModelPrototype r.

(** The column properties that the spread [...o] copies.  The spread copies
    own enumerable properties only.  Those of an object literal are what it
    holds; those of a model instance are the ORM's bookkeeping ([$attributes],
    [$original], ...), none of which is a column, and the accessors stay
    behind on the prototype. *)
Definition spread (o : object) : gmap string value :=
  match proto o with
  | ModelPrototype => ∅
  | ObjectPrototype => own o
  end.

(** ** Entities *)

Inductive entity := HistoricoFinanceiro | ArquivoAssociado | HistoricoAssociado.

(** The foreign-key column each validator extracts. *)
Definition fk_name (e : entity) : string :=
  match e with
  | HistoricoFinanceiro => "financeiroId"
  | ArquivoAssociado => "associadoId"
  | HistoricoAssociado => "historicoId"
  end.

(** The local variable each controller keeps the record in. *)
Definition var_name (e : entity) : string :=
  match e with
  | HistoricoFinanceiro => "historico"
  | ArquivoAssociado => "arquivo"
  | HistoricoAssociado => "historico"
  end.

(** ** Errors, results and the monad *)

Inductive error :=
| ValidationFailure (messages : string)
| RowNotFound
| CustomErrorException (message : string) (status : Z)
| TypeError (message : string)
| OtherError (message : string).

Global Instance error_eq_dec : EqDecision error.
Proof. solve_decision. Defined.

Inductive result (A : Type) :=
| Ok (a : A)
| Throw (e : error).
Arguments Ok {A} a.
Arguments Throw {A} e.

(** The table of one entity, in row order, and the outcomes the store has in
    stock for the coming round-trips: [Some err] makes the next round-trip
    throw [err], [None] (or an exhausted list) lets it through. *)
Record world := mkWorld {
  rows : list (gmap string value);
  faults : list (option error)
}.

Definition M (A : Type) : Type := world -> result A * world.

Definition ret {A} (a : A) : M A := fun w => (Ok a, w).

Definition throw {A} (e : error) : M A := fun w => (Throw e, w).

Definition bind {A B} (m : M A) (k : A -> M B) : M B :=
  fun w =>
    match m w with
    | (Ok a, w') => k a w'
    | (Throw e, w') => (Throw e, w')
    end.

(** [try { m } catch (error) { h error }] *)
Definition try_catch {A} (m : M A) (h : error -> M A) : M A :=
  fun w =>
    match m w with
    | (Ok a, w') => (Ok a, w')
    | (Throw e, w') => h e w'
    end.

(** Lifting of a collaborator that has no access to the table. *)
Definition lift {A} (r : result A) : M A := fun w => (r, w).

Notation "'let!' x ':=' m 'in' k" := (bind m (fun x => k))
  (at level 10, x pattern, m at level 100, k at level 200).
Notation "m ';;' k" := (bind m (fun _ => k))
  (at level 100, k at level 200, right associativity).

(** ** The store

    The model classes extend the ORM's base model, which is a collaborator of
    the controllers and not part of them.  Its operations are embedded by
    their contract: a table is a list of rows, each row a map from column
    name to value; [findOrFail] returns the first row with the given [id] or
    throws the not-found error; [query] returns the rows in table order;
    [save] is a method of the model prototype and writes the instance's
    attributes to the row of its [id].  Every operation is one round-trip,
    which can itself throw. *)

(** One round-trip to the database: consumes the next pending outcome. *)
Definition round_trip : M unit :=
  fun w =>
    match faults w with
    | Some e :: fs => (Throw e, mkWorld (rows w) fs)
    | _ => (Ok tt, mkWorld (rows w) (tail (faults w)))
    end.

(** The store answers its next [n] round-trips. *)
Definition served (n : nat) (w : world) : Prop :=
  Forall (fun f => f = None) (take n (faults w)).

(** The world once [n] round-trips have been answered. *)
Definition advance (n : nat) (w : world) : world :=
  mkWorld (rows w) (drop n (faults w)).

Definition has_id (id : value) (r : gmap string value) : bool :=
  bool_decide (r !! "id" = Some id).

Definition id_of (r : gmap string value) : Z :=
  match r !! "id" with
  | Some (VNum n) => n
  | _ => 0
  end.

(** The identifier the table assigns to the next inserted row. *)
Definition next_id (t : list (gmap string value)) : Z :=
  1 + foldr (fun r m => Z.max (id_of r) m) 0 t.

(** Modelled from the spec: the model classes and their migrations are not
    among the sources.  "Persist via the store's create operation, which
    assigns a new unique identifier" and "active defaults to true at creation
    (implied; never explicitly set on create)": the new row holds the given
    fields, a fresh [id], and [ativo = true] unless the caller gave one. *)
Definition create (fields : gmap string value) : M object :=
  round_trip ;;
  fun w =>
    let r := <["id" := VNum (next_id (rows w))]>
               (match fields !! "ativo" with
                | Some _ => fields
                | None => <["ativo" := VBool true]> fields
                end) in
    (Ok (instance r), mkWorld (rows w ++ [r])%list (faults w)).

(** [Model.findOrFail(id)] *)
Definition findOrFail (id : Z) : M object :=
  round_trip ;;
  fun w =>
    match List.find (has_id (VNum id)) (rows w) with
    | Some r => (Ok (instance r), w)
    | None => (Throw RowNotFound, w)
    end.

(** [Model.query()] *)
Definition query : M (list object) :=
  round_trip ;;
  fun w => (Ok (map instance (rows w)), w).

Definition is_ativo (r : gmap string value) : bool :=
  bool_decide (r !! "ativo" = Some (VBool true)).

(** [Model.query().where('ativo', true)] *)
Definition query_where_ativo : M (list object) :=
  round_trip ;;
  fun w => (Ok (map instance (List.filter is_ativo (rows w))), w).

(** The table after the row of [o] has been written back. *)
Definition write_back (o : object) (t : list (gmap string value))
  : list (gmap string value) :=
  map (fun r => if bool_decide (r !! "id" = own o !! "id") then own o else r) t.

(** [instance.save()], the method of the model prototype. *)
Definition save (o : object) : M unit :=
  round_trip ;;
  fun w => (Ok tt, mkWorld (write_back o (rows w)) (faults w)).

(** The call expression [x.save()]: the method is looked up through the
    prototype of [x]; an object literal has none, and calling [undefined]
    throws. *)
Definition call_save (e : entity) (o : object) : M unit :=
  match proto o with
  | ModelPrototype => save o
  | ObjectPrototype => throw (TypeError (var_name e +:+ ".save is not a function"))
  end.

(** ** The HTTP context *)

Record user := mkUser { nome : string }.

Record HttpContext := mkCtx {
  request_body : gmap string value;
  params_id : Z;
  auth_user : option user
}.

(** [auth.user?.nome] *)
Definition user_nome (ctx : HttpContext) : value :=
  match auth_user ctx with
  | Some u => VStr (nome u)
  | None => VUndefined
  end.

Inductive payload :=
| PRecord (o : object)
| PList (l : list object).

Inductive message_value :=
| Text (s : string)
| Raw (e : error).

Record envelope := mkEnvelope {
  status : bool;
  message : message_value;
  data : option payload
}.

Record response := mkResponse {
  http_status : Z;
  body : envelope
}.

(** [response.status(c).send({status: true, message: m, data: d})] *)
Definition send_ok (c : Z) (m : string) (d : payload) : M response :=
  ret (mkResponse c (mkEnvelope true (Text m) (Some d))).

(** [response.status(500).send({status: false, message: error})] *)
Definition send_error (err : error) : M response :=
  ret (mkResponse 500 (mkEnvelope false (Raw err) None)).

(** ** The controllers *)

Section Controllers.

(** The validators are not among the sources: [request.validate] is taken as
    any function from the raw body to the pair (foreign key, documento) or to a
    thrown error. *)
Variable validate : entity -> gmap string value -> result (value * value).

(** The object literal of [create]:
    [{ fk, documento, createdBy: auth.user?.nome }] *)
Definition new_fields (e : entity) (fk doc : value) (ctx : HttpContext)
  : gmap string value :=
  <["createdBy" := user_nome ctx]>
    (<["documento" := doc]> (<[fk_name e := fk]> ∅)).

(** The object literal of [atualizar]:
    [{ ...historico, fk, documento, updatedBy: auth.user?.nome ?? null }] *)
Definition spread_update (e : entity) (historico : object) (fk doc : value)
    (ctx : HttpContext) : object :=
  mkObject ObjectPrototype
    (<["updatedBy" := nullish (user_nome ctx) VNull]>
       (<["documento" := doc]> (<[fk_name e := fk]> (spread historico)))).

Definition cadastrar_body (e : entity) (ctx : HttpContext) : M response :=
  let! (fk, documento) := lift (validate e (request_body ctx)) in
  let! historico := create (new_fields e fk documento ctx) in
  send_ok 201 "Registro cadastrado com sucesso!" (PRecord historico).

Definition atualizar_body (e : entity) (ctx : HttpContext) : M response :=
  let! historico := findOrFail (params_id ctx) in
  let! (fk, documento) := lift (validate e (request_body ctx)) in
  let historico := spread_update e historico fk documento ctx in
  call_save e historico ;;
  send_ok 200 "Registro atualizado com sucesso" (PRecord historico).

Definition ativar_body (e : entity) (ctx : HttpContext) : M response :=
  let! historico := findOrFail (params_id ctx) in
  let historico := assign "ativo" (js_not (get "ativo" historico)) historico in
  let historico := assign "updatedBy" (nullish (user_nome ctx) VNull) historico in
  call_save e historico ;;
  send_ok 200
    ("Registro " +:+
       (if truthy (get "ativo" historico) then "ativado" else "inativado") +:+
       " com sucesso")
    (PRecord historico).

Definition buscarTodos_body (e : entity) (ctx : HttpContext) : M response :=
  let! historicos := query in
  if (Z.of_nat (length historicos) <=? 0)
  then throw (CustomErrorException "Nenhum registro encontrado" 404)
  else send_ok 200 "Registros retornados com sucesso" (PList historicos).

Definition buscarAtivos_body (e : entity) (ctx : HttpContext) : M response :=
  let! historicos := query_where_ativo in
  if (Z.of_nat (length historicos) <=? 0)
  then throw (CustomErrorException "Nenhum registro encontrado" 404)
  else send_ok 200 "Registros retornados com sucesso" (PList historicos).

Definition buscarPorId_body (e : entity) (ctx : HttpContext) : M response :=
  let! historico := findOrFail (params_id ctx) in
  send_ok 200 "Registro retornado com sucesso" (PRecord historico).

Definition cadastrar e ctx := try_catch (cadastrar_body e ctx) send_error.
Definition atualizar e ctx := try_catch (atualizar_body e ctx) send_error.
Definition ativar e ctx := try_catch (ativar_body e ctx) send_error.
Definition buscarTodos e ctx := try_catch (buscarTodos_body e ctx) send_error.
Definition buscarAtivos e ctx := try_catch (buscarAtivos_body e ctx) send_error.
Definition buscarPorId e ctx := try_catch (buscarPorId_body e ctx) send_error.

(** The six operations of a controller, to quantify over them. *)
Inductive operation :=
| Cadastrar | Atualizar | Ativar | BuscarTodos | BuscarAtivos | BuscarPorId.

Definition try_block (op : operation) : entity -> HttpContext -> M response :=
  match op with
  | Cadastrar => cadastrar_body
  | Atualizar => atualizar_body
  | Ativar => ativar_body
  | BuscarTodos => buscarTodos_body
  | BuscarAtivos => buscarAtivos_body
  | BuscarPorId => buscarPorId_body
  end.

Definition handle (op : operation) : entity -> HttpContext -> M response :=
  match op with
  | Cadastrar => cadastrar
  | Atualizar => atualizar
  | Ativar => ativar
  | BuscarTodos => buscarTodos
  | BuscarAtivos => buscarAtivos
  | BuscarPorId => buscarPorId
  end.

End Controllers.

(** ** Derived records and response shapes *)

(** The record [ativar] saves and returns, from the row it found. *)
Definition toggled (ctx : HttpContext) (r : gmap string value) : object :=
  assign "updatedBy" (nullish (user_nome ctx) VNull)
    (assign "ativo" (js_not (get "ativo" (instance r))) (instance r)).

(** The row [create] inserts for the object literal of [cadastrar]. *)
Definition created (e : entity) (fk doc : value) (ctx : HttpContext)
    (t : list (gmap string value)) : gmap string value :=
  <["id" := VNum (next_id t)]>
    (<["ativo" := VBool true]> (new_fields e fk doc ctx)).

(** The exception the list operations build for an empty result set:
    [new CustomErrorException("Nenhum registro encontrado", 404)]. *)
Definition empty_result : error :=
  CustomErrorException "Nenhum registro encontrado" 404.

(** The two shapes a response can have. *)
Definition success (resp : response) : Prop :=
  status (body resp) = true
  /\ (http_status resp = 200 \/ http_status resp = 201)
  /\ exists s, message (body resp) = Text s.

Definition failure (resp : response) : Prop :=
  status (body resp) = false
  /\ http_status resp = 500
  /\ exists err, message (body resp) = Raw err.

(** The status code, the [status] flag and the message of the response an
    operation sent, when it sent one. *)
Definition answer (x : result response * world)
  : option (Z * bool * message_value) :=
  match fst x with
  | Ok resp => Some (http_status resp, status (body resp), message (body resp))
  | Throw _ => None
  end.

(** The [id] column of a table, row by row. *)
Definition ids (t : list (gmap string value)) : list (option value) :=
  map (fun r => r !! "id") t.

(** The operations that answer with a list. *)
Definition is_listing (op : operation) : bool :=
  match op with
  | BuscarTodos | BuscarAtivos => true
  | _ => false
  end.

(** ** A concrete validator and sample data, for the examples *)

(** Accepts a body holding a numeric foreign key and a string documento. *)
Definition sample_validate (e : entity) (b : gmap string value)
  : result (value * value) :=
  match b !! fk_name e, b !! "documento" with
  | Some (VNum n), Some (VStr s) => Ok (VNum n, VStr s)
  | _, _ => Throw (ValidationFailure "E_VALIDATION_FAILURE")
  end.

Definition sample_row (id fk : Z) (doc : string) (ativo : bool)
  : gmap string value :=
  <["id" := VNum id]> (<["financeiroId" := VNum fk]>
    (<["documento" := VStr doc]> (<["ativo" := VBool ativo]>
      (<["createdBy" := VStr "Ana"]> ∅)))).

Definition sample_body (fk : Z) (doc : string) : gmap string value :=
  <["financeiroId" := VNum fk]> (<["documento" := VStr doc]> ∅).

Definition ana : option user := Some (mkUser "Ana").

Definition w1 : world := mkWorld [sample_row 1 7 "abc" true] [].

Definition w2 : world :=
  mkWorld [sample_row 1 7 "abc" true; sample_row 2 8 "def" false] [].

(** A row written before the [ativo] column existed: the column is null. *)
Definition w3 : world :=
  mkWorld [<["ativo" := VNull]> (sample_row 1 7 "abc" true)] [].

(** * Properties *)

(** ** The monad and the store *)

Lemma bind_ok {A B} (m : M A) (k : A -> M B) w a w' :
  m w = (Ok a, w') -> bind m k w = k a w'.
Proof. intros H. unfold bind. now rewrite H. Qed.

Lemma bind_throw {A B} (m : M A) (k : A -> M B) w err w' :
  m w = (Throw err, w') -> bind m k w = (Throw err, w').
Proof. intros H. unfold bind. now rewrite H. Qed.

Lemma bind_ok_inv {A B} (m : M A) (k : A -> M B) w b w' :
  bind m k w = (Ok b, w') ->
  exists a w1, m w = (Ok a, w1) /\ k a w1 = (Ok b, w').
Proof.
  unfold bind. destruct (m w) as [[a|err] w1]; intros H.
  - now exists a, w1.
  - discriminate.
Qed.

Lemma try_catch_ok {A} (m : M A) h w a w' :
  m w = (Ok a, w') -> try_catch m h w = (Ok a, w').
Proof. intros H. unfold try_catch. now rewrite H. Qed.

Lemma try_catch_throw {A} (m : M A) h w err w' :
  m w = (Throw err, w') -> try_catch m h w = h err w'.
Proof. intros H. unfold try_catch. now rewrite H. Qed.

Lemma served_S n w :
  served (S n) w ->
  round_trip w = (Ok tt, advance 1 w) /\ served n (advance 1 w).
Proof.
  destruct w as [t [|[err|] fs]]; unfold served, round_trip, advance; simpl.
  - intros _. split; [reflexivity | now rewrite take_nil].
  - intros H. inversion H; discriminate.
  - intros H. inversion H; subst. now split.
Qed.

Lemma served_le n m w : (n <= m)%nat -> served m w -> served n w.
Proof.
  unfold served. intros Hle H.
  replace n with (Nat.min n m) by lia.
  rewrite <- take_take. now apply Forall_take.
Qed.

Lemma findOrFail_found id w r :
  served 1 w ->
  List.find (has_id (VNum id)) (rows w) = Some r ->
  findOrFail id w = (Ok (instance r), advance 1 w).
Proof.
  intros Hs Hf. destruct (served_S _ _ Hs) as [Hr _].
  unfold findOrFail. rewrite (bind_ok _ _ _ _ _ Hr). simpl. now rewrite Hf.
Qed.

Lemma findOrFail_missing id w :
  served 1 w ->
  List.find (has_id (VNum id)) (rows w) = None ->
  findOrFail id w = (Throw RowNotFound, advance 1 w).
Proof.
  intros Hs Hf. destruct (served_S _ _ Hs) as [Hr _].
  unfold findOrFail. rewrite (bind_ok _ _ _ _ _ Hr). simpl. now rewrite Hf.
Qed.

Lemma save_served o w :
  served 1 w ->
  save o w = (Ok tt, mkWorld (write_back o (rows w)) (drop 1 (faults w))).
Proof.
  intros Hs. destruct (served_S _ _ Hs) as [Hr _].
  unfold save. now rewrite (bind_ok _ _ _ _ _ Hr).
Qed.

Lemma find_has_id id t r :
  List.find (has_id id) t = Some r -> r !! "id" = Some id.
Proof.
  intros H. apply find_some in H as [_ H].
  unfold has_id in H. now apply bool_decide_eq_true in H.
Qed.

(** Writing an object back puts it where a lookup by its [id] finds it. *)
Lemma find_write_back id o t r :
  List.find (has_id id) t = Some r ->
  own o !! "id" = Some id ->
  List.find (has_id id) (write_back o t) = Some (own o).
Proof.
  intros Hf Ho. induction t as [|a t IH]; [discriminate|].
  simpl in *. rewrite Ho. unfold has_id at 1 in Hf.
  destruct (bool_decide (a !! "id" = Some id)) eqn:Ha.
  - unfold has_id. now rewrite (bool_decide_eq_true_2 _ Ho).
  - unfold has_id at 1. rewrite Ha. now apply IH.
Qed.

(** Rows of another identifier are left as they were. *)
Lemma write_back_other o t r :
  In r t -> r !! "id" <> own o !! "id" -> In r (write_back o t).
Proof.
  intros Hin Hne. unfold write_back. apply in_map_iff. exists r.
  split; [|assumption]. now rewrite bool_decide_eq_false_2.
Qed.

(** ** Toggle *)

Lemma toggled_id ctx r : own (toggled ctx r) !! "id" = r !! "id".
Proof. unfold toggled, assign. simpl. now rewrite !lookup_insert_ne. Qed.

Lemma toggled_ativo_lookup ctx r :
  own (toggled ctx r) !! "ativo" = Some (js_not (get "ativo" (instance r))).
Proof.
  unfold toggled, assign. simpl.
  rewrite lookup_insert_ne by done. now rewrite lookup_insert_eq.
Qed.

Lemma call_save_model e o w :
  proto o = ModelPrototype ->
  served 1 w ->
  call_save e o w
  = (Ok tt, mkWorld (write_back o (rows w)) (drop 1 (faults w))).
Proof. intros Hp Hs. unfold call_save. rewrite Hp. now apply save_served. Qed.

(** What [ativar] does on a record the store holds, in closed form. *)
Lemma ativar_found e ctx w r :
  served 2 w ->
  List.find (has_id (VNum (params_id ctx))) (rows w) = Some r ->
  ativar e ctx w =
    (Ok (mkResponse 200
           (mkEnvelope true
              (Text ("Registro " +:+
                       (if truthy (get "ativo" (toggled ctx r))
                        then "ativado" else "inativado") +:+ " com sucesso"))
              (Some (PRecord (toggled ctx r))))),
     mkWorld (write_back (toggled ctx r) (rows w)) (drop 2 (faults w))).
Proof.
  intros Hs Hf.
  destruct (served_S _ _ Hs) as [_ Hs1].
  apply (served_le 1 2) in Hs; [|lia].
  unfold ativar. apply try_catch_ok. unfold ativar_body.
  rewrite (bind_ok _ _ _ _ _ (findOrFail_found _ _ _ Hs Hf)).
  cbv zeta. fold (toggled ctx r).
  rewrite (bind_ok _ _ _ _ _ (call_save_model e (toggled ctx r) _ eq_refl Hs1)).
  unfold send_ok, ret, advance. simpl. now rewrite drop_drop.
Qed.

(** C5.  A toggle call on an existing record with a boolean [ativo] answers
    HTTP 200 with the message "Registro ativado com sucesso" when the record is
    now active and "Registro inativado com sucesso" otherwise, with the updated
    record as data; that record has [ativo] negated and [updatedBy] set to the
    acting user's name, or to null when there is no user, every other field as
    found; and it is the record a lookup by the same identifier finds in the
    table afterwards. *)
Theorem ativar_toggles (e : entity) (ctx : HttpContext) (w : world)
    (r : gmap string value) (b : bool) :
  served 2 w ->
  List.find (has_id (VNum (params_id ctx))) (rows w) = Some r ->
  r !! "ativo" = Some (VBool b) ->
  let historico :=
    mkObject ModelPrototype
      (<["updatedBy" := match auth_user ctx with
                        | Some u => VStr (nome u)
                        | None => VNull
                        end]> (<["ativo" := VBool (negb b)]> r)) in
  fst (ativar e ctx w) =
    Ok (mkResponse 200
          (mkEnvelope true
             (Text (if negb b then "Registro ativado com sucesso"
                    else "Registro inativado com sucesso"))
             (Some (PRecord historico))))
  /\ List.find (has_id (VNum (params_id ctx))) (rows (snd (ativar e ctx w)))
     = Some (own historico)
  /\ forall r', In r' (rows w) -> r' !! "id" <> Some (VNum (params_id ctx)) ->
                In r' (rows (snd (ativar e ctx w))).
Proof.
  intros Hs Hf Hb historico.
  assert (Ht : toggled ctx r = historico).
  { unfold toggled, historico, assign, get, js_not, user_nome. simpl.
    rewrite Hb. simpl. now destruct (auth_user ctx). }
  rewrite (ativar_found e ctx w r Hs Hf), Ht. simpl.
  assert (Hid : own historico !! "id" = Some (VNum (params_id ctx))).
  { rewrite <- Ht, toggled_id. now apply find_has_id in Hf. }
  split; [|split].
  - do 4 f_equal.
    unfold get, historico. simpl.
    rewrite lookup_insert_ne by done. rewrite lookup_insert_eq. simpl.
    now destruct b.
  - now apply find_write_back with (r := r).
  - intros r' Hin Hne. apply write_back_other; [assumption|]. now rewrite Hid.
Qed.

Lemma ativar_toggles_witness :
  answer (ativar HistoricoFinanceiro (mkCtx ∅ 1 ana) w2)
  = Some (200, true, Text "Registro inativado com sucesso").
Proof.
  destruct (ativar_toggles HistoricoFinanceiro (mkCtx ∅ 1 ana) w2
              (sample_row 1 7 "abc" true) true) as [H _].
  - unfold served. simpl. constructor.
  - reflexivity.
  - reflexivity.
  - unfold answer. now rewrite H.
Defined.

Lemma served_drop n m w t :
  served (m + n) w -> served n (mkWorld t (drop m (faults w))).
Proof.
  unfold served. simpl. intros H.
  rewrite take_drop_commute. now apply Forall_drop.
Qed.

(** Two toggles in a row on a record the store holds: what the table holds
    for that identifier afterwards. *)
Lemma ativar_twice_found e ctx1 ctx2 w r :
  served 4 w ->
  params_id ctx2 = params_id ctx1 ->
  List.find (has_id (VNum (params_id ctx1))) (rows w) = Some r ->
  List.find (has_id (VNum (params_id ctx1)))
    (rows (snd (ativar e ctx2 (snd (ativar e ctx1 w)))))
  = Some (own (toggled ctx2 (own (toggled ctx1 r)))).
Proof.
  intros Hs Hid Hf.
  pose proof (find_has_id _ _ _ Hf) as Hr.
  rewrite (ativar_found e ctx1 w r (served_le 2 4 w ltac:(lia) Hs) Hf).
  cbn [snd rows].
  assert (Hf1 : List.find (has_id (VNum (params_id ctx2)))
                  (write_back (toggled ctx1 r) (rows w))
                = Some (own (toggled ctx1 r))).
  { rewrite Hid. apply find_write_back with (r := r); [assumption|].
    now rewrite toggled_id. }
  rewrite (ativar_found e ctx2 _ (own (toggled ctx1 r))).
  - cbn [snd rows]. rewrite <- Hid.
    apply find_write_back with (r := own (toggled ctx1 r)).
    + assumption.
    + rewrite toggled_id, toggled_id, Hid. assumption.
  - now apply (served_drop 2 2 w).
  - assumption.
Qed.

(** In JavaScript terms the second toggle leaves [!!ativo]; on a boolean that
    is the value the field had. *)
Lemma toggled_twice_ativo ctx1 ctx2 r :
  own (toggled ctx2 (own (toggled ctx1 r))) !! "ativo"
  = Some (VBool (truthy (get "ativo" (instance r)))).
Proof.
  rewrite toggled_ativo_lookup. unfold get at 1. cbn [own instance].
  rewrite toggled_ativo_lookup. unfold js_not. simpl.
  now rewrite negb_involutive.
Qed.

(** C7.  Applying the toggle operation twice in succession to a record of the
    store returns its [ativo] field to the value it had before the first
    toggle (and in between the field holds the opposite value). *)
Theorem ativar_twice_restores (e : entity) (ctx1 ctx2 : HttpContext)
    (w : world) (r : gmap string value) (b : bool) :
  served 4 w ->
  params_id ctx2 = params_id ctx1 ->
  List.find (has_id (VNum (params_id ctx1))) (rows w) = Some r ->
  r !! "ativo" = Some (VBool b) ->
  exists r1 r2,
    List.find (has_id (VNum (params_id ctx1))) (rows (snd (ativar e ctx1 w)))
    = Some r1
    /\ r1 !! "ativo" = Some (VBool (negb b))
    /\ List.find (has_id (VNum (params_id ctx1)))
         (rows (snd (ativar e ctx2 (snd (ativar e ctx1 w))))) = Some r2
    /\ r2 !! "ativo" = r !! "ativo".
Proof.
  intros Hs Hid Hf Hb.
  exists (own (toggled ctx1 r)), (own (toggled ctx2 (own (toggled ctx1 r)))).
  split; [|split; [|split]].
  - rewrite (ativar_found e ctx1 w r (served_le 2 4 w ltac:(lia) Hs) Hf).
    cbn [snd rows].
    apply find_write_back with (r := r); [assumption|].
    rewrite toggled_id. now apply find_has_id in Hf.
  - rewrite toggled_ativo_lookup. unfold js_not, get. simpl. now rewrite Hb.
  - now apply ativar_twice_found.
  - rewrite toggled_twice_ativo. unfold get. simpl. now rewrite Hb.
Qed.

Lemma ativar_twice_restores_witness :
  exists r2,
    List.find (has_id (VNum 1))
      (rows (snd (ativar HistoricoFinanceiro (mkCtx ∅ 1 None)
                    (snd (ativar HistoricoFinanceiro (mkCtx ∅ 1 ana) w2)))))
    = Some r2
    /\ r2 !! "ativo" = Some (VBool true).
Proof.
  destruct (ativar_twice_restores HistoricoFinanceiro (mkCtx ∅ 1 ana)
              (mkCtx ∅ 1 None) w2 (sample_row 1 7 "abc" true) true)
    as (r1 & r2 & _ & _ & H2 & H3).
  - unfold served. simpl. constructor.
  - reflexivity.
  - reflexivity.
  - reflexivity.
  - exists r2. split; [exact H2 | exact H3].
Defined.

(** ** Update *)

Section Update.

Variable validate : entity -> gmap string value -> result (value * value).

(** The object built by the spread is an object literal: the method call on
    it throws before the store is reached. *)
Lemma call_save_spread e historico fk doc ctx w :
  call_save e (spread_update e historico fk doc ctx) w
  = (Throw (TypeError (var_name e +:+ ".save is not a function")), w).
Proof. reflexivity. Qed.

(** What [atualizar] does on a record the store holds and a body the validator
    accepts. *)
Lemma atualizar_found e ctx w r fk doc :
  served 1 w ->
  List.find (has_id (VNum (params_id ctx))) (rows w) = Some r ->
  validate e (request_body ctx) = Ok (fk, doc) ->
  atualizar validate e ctx w
  = (Ok (mkResponse 500
           (mkEnvelope false
              (Raw (TypeError (var_name e +:+ ".save is not a function")))
              None)),
     advance 1 w).
Proof.
  intros Hs Hf Hv. unfold atualizar.
  rewrite (try_catch_throw _ _ w
             (TypeError (var_name e +:+ ".save is not a function"))
             (advance 1 w)); [reflexivity|].
  unfold atualizar_body.
  rewrite (bind_ok _ _ _ _ _ (findOrFail_found _ _ _ Hs Hf)).
  unfold lift, bind at 1. rewrite Hv.
  apply bind_throw, call_save_spread.
Qed.

(** No call of [atualizar] writes to the table, and every call answers 500. *)
Lemma atualizar_inert e ctx w :
  rows (snd (atualizar validate e ctx w)) = rows w
  /\ exists err,
       fst (atualizar validate e ctx w)
       = Ok (mkResponse 500 (mkEnvelope false (Raw err) None)).
Proof.
  unfold atualizar, try_catch, atualizar_body, findOrFail, bind, lift, round_trip.
  destruct w as [t [|[err|] fs]]; simpl;
    try destruct (List.find _ t); simpl;
    try destruct (validate e (request_body ctx)) as [[fk doc]|err'];
    simpl; eauto.
Qed.

(** The object built from a model instance holds the three properties written
    after the spread and no other column. *)
Lemma spread_update_columns e historico fk doc ctx k :
  proto historico = ModelPrototype ->
  k <> fk_name e -> k <> "documento" -> k <> "updatedBy" ->
  get k (spread_update e historico fk doc ctx) = VUndefined.
Proof.
  intros Hp H1 H2 H3. unfold get, spread_update, spread. rewrite Hp. simpl.
  now rewrite !lookup_insert_ne, lookup_empty by congruence.
Qed.

Lemma fk_name_not_audit e :
  fk_name e <> "ativo" /\ fk_name e <> "createdBy" /\ fk_name e <> "updatedBy"
  /\ fk_name e <> "documento" /\ fk_name e <> "id".
Proof. destruct e; repeat split; discriminate. Qed.

End Update.


(** C1.  An update call on record 1 of a one-row table, with a body the
    validator accepts and "Ana" as acting user, answers HTTP 500 with the
    [TypeError] of the failed method call, and the table keeps the record as
    it was: the call expression [historico.save()] is evaluated on the object
    literal built by the spread. *)
Theorem atualizar_valid_existing_answers_500 :
  atualizar sample_validate HistoricoFinanceiro
    (mkCtx (sample_body 9 "xyz") 1 ana) w1
  = (Ok (mkResponse 500
           (mkEnvelope false
              (Raw (TypeError "historico.save is not a function")) None)),
     w1)
  /\ List.find (has_id (VNum 1)) (rows w1) = Some (sample_row 1 7 "abc" true)
  /\ sample_validate HistoricoFinanceiro (sample_body 9 "xyz")
     = Ok (VNum 9, VStr "xyz").
Proof. repeat split; vm_compute; reflexivity. Qed.

(** ** Create *)

Section Create.

Variable validate : entity -> gmap string value -> result (value * value).

Lemma new_fields_no_ativo e fk doc ctx :
  new_fields e fk doc ctx !! "ativo" = None.
Proof.
  destruct (fk_name_not_audit e) as (Ha & _).
  unfold new_fields. now rewrite !lookup_insert_ne, lookup_empty by congruence.
Qed.

Lemma create_served e fk doc ctx w :
  served 1 w ->
  create (new_fields e fk doc ctx) w
  = (Ok (instance (created e fk doc ctx (rows w))),
     mkWorld (rows w ++ [created e fk doc ctx (rows w)])%list (drop 1 (faults w))).
Proof.
  intros Hs. destruct (served_S _ _ Hs) as [Hr _].
  unfold create. rewrite (bind_ok _ _ _ _ _ Hr).
  now rewrite new_fields_no_ativo.
Qed.

(** C4.  A create call whose body passes validation answers HTTP 201 with the
    envelope [{status: true, message: "Registro cadastrado com sucesso!",
    data: historico}], where the created record [historico] has the validated
    foreign key and [documento], [ativo] true, and [createdBy] the acting
    user's name, or undefined (absent) when there is no user; the record is
    appended to the table. *)
Theorem cadastrar_creates (e : entity) (ctx : HttpContext) (w : world)
    (fk doc : value) :
  served 1 w ->
  validate e (request_body ctx) = Ok (fk, doc) ->
  exists historico,
    fst (cadastrar validate e ctx w)
    = Ok (mkResponse 201
            (mkEnvelope true (Text "Registro cadastrado com sucesso!")
               (Some (PRecord historico))))
    /\ rows (snd (cadastrar validate e ctx w)) = (rows w ++ [own historico])%list
    /\ get (fk_name e) historico = fk
    /\ get "documento" historico = doc
    /\ get "ativo" historico = VBool true
    /\ get "createdBy" historico
       = match auth_user ctx with
         | Some u => VStr (nome u)
         | None => VUndefined
         end.
Proof.
  intros Hs Hv. exists (instance (created e fk doc ctx (rows w))).
  assert (Hrun : cadastrar validate e ctx w
                 = (Ok (mkResponse 201
                          (mkEnvelope true
                             (Text "Registro cadastrado com sucesso!")
                             (Some (PRecord
                                (instance (created e fk doc ctx (rows w))))))),
                    mkWorld (rows w ++ [created e fk doc ctx (rows w)])%list
                      (drop 1 (faults w)))).
  { unfold cadastrar. apply try_catch_ok. unfold cadastrar_body.
    unfold lift, bind at 1. rewrite Hv.
    now rewrite (bind_ok _ _ _ _ _ (create_served e fk doc ctx w Hs)). }
  rewrite Hrun. cbn [fst snd rows own instance].
  destruct (fk_name_not_audit e) as (Ha & Hc & Hu & Hd & Hi).
  split; [reflexivity|]. split; [reflexivity|].
  unfold get, created, new_fields. cbn [own instance].
  repeat split.
  - rewrite !lookup_insert_ne by congruence. now rewrite lookup_insert_eq.
  - rewrite !lookup_insert_ne by done. now rewrite lookup_insert_eq.
  - rewrite lookup_insert_ne by done. now rewrite lookup_insert_eq.
  - rewrite !lookup_insert_ne by done. rewrite lookup_insert_eq.
    unfold user_nome. now destruct (auth_user ctx).
Qed.

End Create.

Lemma cadastrar_creates_witness :
  answer (cadastrar sample_validate HistoricoFinanceiro
            (mkCtx (sample_body 7 "abc") 0 ana) (mkWorld [] []))
  = Some (201, true, Text "Registro cadastrado com sucesso!").
Proof.
  destruct (cadastrar_creates sample_validate HistoricoFinanceiro
              (mkCtx (sample_body 7 "abc") 0 ana) (mkWorld [] [])
              (VNum 7) (VStr "abc")) as (historico & H & _).
  - unfold served. simpl. constructor.
  - reflexivity.
  - unfold answer. now rewrite H.
Defined.

(** The scenario of the specification: as user "Ana", creating a financial
    history with [financeiroId] 7 and [documento] "abc" yields 201 and a
    record created by "Ana" that is active. *)
Example cadastrar_ana :
  match fst (cadastrar sample_validate HistoricoFinanceiro
               (mkCtx (sample_body 7 "abc") 0 ana) (mkWorld [] [])) with
  | Ok (mkResponse c (mkEnvelope true _ (Some (PRecord h)))) =>
      c = 201 /\ get "createdBy" h = VStr "Ana" /\ get "ativo" h = VBool true
      /\ get "id" h = VNum 1
  | _ => False
  end.
Proof. vm_compute. repeat split. Qed.

(** ** Listing *)

Lemma query_served w :
  served 1 w -> query w = (Ok (map instance (rows w)), advance 1 w).
Proof.
  intros Hs. destruct (served_S _ _ Hs) as [Hr _].
  unfold query. now rewrite (bind_ok _ _ _ _ _ Hr).
Qed.

Lemma query_where_ativo_served w :
  served 1 w ->
  query_where_ativo w
  = (Ok (map instance (List.filter is_ativo (rows w))), advance 1 w).
Proof.
  intros Hs. destruct (served_S _ _ Hs) as [Hr _].
  unfold query_where_ativo. now rewrite (bind_ok _ _ _ _ _ Hr).
Qed.

Lemma length_test_empty {A} (l : list A) :
  (Z.of_nat (length l) <=? 0) = true <-> l = [].
Proof.
  destruct l; simpl; split; intros H; try reflexivity; discriminate.
Qed.

Lemma length_test_nonempty {A} (l : list A) :
  l <> [] -> (Z.of_nat (length l) <=? 0) = false.
Proof.
  intros H. destruct (Z.of_nat (length l) <=? 0) eqn:E; [|reflexivity].
  now apply length_test_empty in E.
Qed.

Lemma map_instance_nil t : map instance t = [] <-> t = [].
Proof. destruct t; simpl; split; congruence. Qed.

Lemma instance_inj r1 r2 : instance r1 = instance r2 -> r1 = r2.
Proof. intros H. now injection H. Qed.

(** C3.  A list-all call on a table with no rows, and a list-active call on a
    table with no active row, throw the empty-result exception, which carries
    the message "Nenhum registro encontrado" and the code 404; the response
    sent has [status] false, that exception as message, and no data (its
    HTTP code is the 500 of the catch-all boundary). *)
Theorem listing_empty_result (e : entity) (ctx : HttpContext) (w : world) :
  served 1 w ->
  (rows w = [] ->
     buscarTodos_body e ctx w
     = (Throw (CustomErrorException "Nenhum registro encontrado" 404),
        advance 1 w)
     /\ fst (buscarTodos e ctx w)
        = Ok (mkResponse 500
                (mkEnvelope false
                   (Raw (CustomErrorException "Nenhum registro encontrado"
                           404))
                   None)))
  /\ (List.filter is_ativo (rows w) = [] ->
        buscarAtivos_body e ctx w
        = (Throw (CustomErrorException "Nenhum registro encontrado" 404),
           advance 1 w)
        /\ fst (buscarAtivos e ctx w)
           = Ok (mkResponse 500
                   (mkEnvelope false
                      (Raw (CustomErrorException
                              "Nenhum registro encontrado" 404))
                      None))).
Proof.
  intros Hs. split; intros He.
  - assert (Hb : buscarTodos_body e ctx w = (Throw empty_result, advance 1 w)).
    { unfold buscarTodos_body.
      rewrite (bind_ok _ _ _ _ _ (query_served w Hs)). now rewrite He. }
    split; [exact Hb|].
    unfold buscarTodos. now rewrite (try_catch_throw _ _ _ _ _ Hb).
  - assert (Hb : buscarAtivos_body e ctx w = (Throw empty_result, advance 1 w)).
    { unfold buscarAtivos_body.
      rewrite (bind_ok _ _ _ _ _ (query_where_ativo_served w Hs)).
      now rewrite He. }
    split; [exact Hb|].
    unfold buscarAtivos. now rewrite (try_catch_throw _ _ _ _ _ Hb).
Qed.

Lemma listing_empty_result_witness :
  buscarTodos_body HistoricoAssociado (mkCtx ∅ 0 None) (mkWorld [] [])
  = (Throw (CustomErrorException "Nenhum registro encontrado" 404),
     mkWorld [] []).
Proof.
  refine (proj1 (proj1 (listing_empty_result HistoricoAssociado
                          (mkCtx ∅ 0 None) (mkWorld [] []) _) _)).
  - unfold served. simpl. constructor.
  - reflexivity.
Defined.

(** What [buscarAtivos] answers when some row is active. *)
Lemma buscarAtivos_found e ctx w :
  served 1 w ->
  List.filter is_ativo (rows w) <> [] ->
  buscarAtivos e ctx w
  = (Ok (mkResponse 200
           (mkEnvelope true (Text "Registros retornados com sucesso")
              (Some (PList (map instance (List.filter is_ativo (rows w))))))),
     advance 1 w).
Proof.
  intros Hs Hne. unfold buscarAtivos. apply try_catch_ok.
  unfold buscarAtivos_body.
  rewrite (bind_ok _ _ _ _ _ (query_where_ativo_served w Hs)).
  rewrite length_test_nonempty; [reflexivity|].
  intros H. now apply map_instance_nil in H.
Qed.

(** Whatever the store does, a list sent by [buscarAtivos] is the list of the
    active rows. *)
Lemma buscarAtivos_data e ctx w resp l :
  fst (buscarAtivos e ctx w) = Ok resp ->
  data (body resp) = Some (PList l) ->
  l = map instance (List.filter is_ativo (rows w)).
Proof.
  unfold buscarAtivos, try_catch, buscarAtivos_body, query_where_ativo, bind,
    round_trip.
  destruct w as [t [|[err|] fs]]; simpl;
    try (destruct (Z.of_nat (length (map instance (List.filter is_ativo t)))
                   <=? 0); simpl);
    intros H; injection H as <-; simpl; congruence.
Qed.

(** C8.  The list a list-active call returns holds exactly the records whose
    [ativo] is true: whenever a list is sent it is the table filtered on
    [ativo = true], in table order; when at least one record is active the
    call does answer 200 with that list; and on a table of one active and one
    inactive record the list has length 1 and holds the active record only. *)
Theorem buscarAtivos_exactly_active (e : entity) (ctx : HttpContext)
    (w : world) :
  (forall resp l,
     fst (buscarAtivos e ctx w) = Ok resp ->
     data (body resp) = Some (PList l) ->
     l = map instance (List.filter is_ativo (rows w))
     /\ forall r, In (instance r) l
                  <-> In r (rows w) /\ r !! "ativo" = Some (VBool true))
  /\ (served 1 w ->
      (exists r, In r (rows w) /\ r !! "ativo" = Some (VBool true)) ->
      fst (buscarAtivos e ctx w)
      = Ok (mkResponse 200
              (mkEnvelope true (Text "Registros retornados com sucesso")
                 (Some (PList (map instance
                                 (List.filter is_ativo (rows w))))))))
  /\ (forall a i,
        served 1 w ->
        rows w = [a; i] \/ rows w = [i; a] ->
        a !! "ativo" = Some (VBool true) ->
        i !! "ativo" = Some (VBool false) ->
        exists l,
          fst (buscarAtivos e ctx w)
          = Ok (mkResponse 200
                  (mkEnvelope true (Text "Registros retornados com sucesso")
                     (Some (PList l))))
          /\ l = [instance a] /\ length l = 1%nat).
Proof.
  split; [|split].
  - intros resp l Hr Hd.
    pose proof (buscarAtivos_data e ctx w resp l Hr Hd) as ->.
    split; [reflexivity|]. intros r. rewrite in_map_iff. split.
    + intros (r' & Heq & Hin). apply instance_inj in Heq. subst r'.
      apply filter_In in Hin as [Hin Ha]. split; [assumption|].
      unfold is_ativo in Ha. now apply bool_decide_eq_true in Ha.
    + intros [Hin Ha]. exists r. split; [reflexivity|].
      apply filter_In. split; [assumption|].
      unfold is_ativo. now apply bool_decide_eq_true.
  - intros Hs (r & Hin & Ha).
    rewrite (buscarAtivos_found e ctx w Hs); [reflexivity|].
    intros Hnil.
    assert (Hf : In r (List.filter is_ativo (rows w))).
    { apply filter_In. split; [assumption|].
      unfold is_ativo. now apply bool_decide_eq_true. }
    rewrite Hnil in Hf. destruct Hf.
  - intros a i Hs Hrows Ha Hi. exists [instance a].
    assert (Hfa : is_ativo a = true)
      by (unfold is_ativo; now apply bool_decide_eq_true).
    assert (Hfi : is_ativo i = false).
    { unfold is_ativo. apply bool_decide_eq_false. rewrite Hi. congruence. }
    assert (Hfil : List.filter is_ativo (rows w) = [a]).
    { destruct Hrows as [-> | ->]; simpl; now rewrite Hfa, Hfi. }
    rewrite (buscarAtivos_found e ctx w Hs); rewrite Hfil; [|discriminate].
    repeat split.
Qed.

Lemma buscarAtivos_exactly_active_witness :
  fst (buscarAtivos HistoricoFinanceiro (mkCtx ∅ 0 None) w2)
  = Ok (mkResponse 200
          (mkEnvelope true (Text "Registros retornados com sucesso")
             (Some (PList [instance (sample_row 1 7 "abc" true)])))).
Proof.
  destruct (proj2 (proj2 (buscarAtivos_exactly_active HistoricoFinanceiro
                            (mkCtx ∅ 0 None) w2))
              (sample_row 1 7 "abc" true) (sample_row 2 8 "def" false))
    as (l & H & -> & _).
  - unfold served. simpl. constructor.
  - left. reflexivity.
  - reflexivity.
  - reflexivity.
  - exact H.
Defined.

(** ** Get by id *)

(** C9.  A get-by-id call never changes the table.  When no row has the
    identifier, the lookup throws the store's own not-found error, which is not
    the exception the list operations build, and that error is what the
    response carries; when a row has it, the response is HTTP 200 with the
    message "Registro retornado com sucesso" and that record as data. *)
Theorem buscarPorId_outcomes (e : entity) (ctx : HttpContext) (w : world) :
  rows (snd (buscarPorId e ctx w)) = rows w
  /\ (served 1 w ->
      List.find (has_id (VNum (params_id ctx))) (rows w) = None ->
      buscarPorId_body e ctx w = (Throw RowNotFound, advance 1 w)
      /\ RowNotFound <> empty_result
      /\ fst (buscarPorId e ctx w)
         = Ok (mkResponse 500 (mkEnvelope false (Raw RowNotFound) None)))
  /\ (forall r,
        served 1 w ->
        List.find (has_id (VNum (params_id ctx))) (rows w) = Some r ->
        fst (buscarPorId e ctx w)
        = Ok (mkResponse 200
                (mkEnvelope true (Text "Registro retornado com sucesso")
                   (Some (PRecord (instance r)))))).
Proof.
  split; [|split].
  - unfold buscarPorId, try_catch, buscarPorId_body, findOrFail, bind,
      round_trip.
    destruct w as [t [|[err|] fs]]; simpl;
      try destruct (List.find _ t); reflexivity.
  - intros Hs Hf.
    assert (Hb : buscarPorId_body e ctx w = (Throw RowNotFound, advance 1 w)).
    { unfold buscarPorId_body.
      now rewrite (bind_throw _ _ _ _ _ (findOrFail_missing _ _ Hs Hf)). }
    split; [exact Hb|]. split; [discriminate|].
    unfold buscarPorId. now rewrite (try_catch_throw _ _ _ _ _ Hb).
  - intros r Hs Hf. unfold buscarPorId, buscarPorId_body.
    erewrite try_catch_ok; [reflexivity|].
    now rewrite (bind_ok _ _ _ _ _ (findOrFail_found _ _ _ Hs Hf)).
Qed.

Lemma buscarPorId_outcomes_witness :
  answer (buscarPorId HistoricoFinanceiro (mkCtx ∅ 3 None) w2)
  = Some (500, false, Raw RowNotFound)
  /\ answer (buscarPorId HistoricoFinanceiro (mkCtx ∅ 2 None) w2)
     = Some (200, true, Text "Registro retornado com sucesso").
Proof.
  split.
  - destruct (proj1 (proj2 (buscarPorId_outcomes HistoricoFinanceiro
                              (mkCtx ∅ 3 None) w2))) as (_ & _ & H).
    + unfold served. simpl. constructor.
    + reflexivity.
    + unfold answer. now rewrite H.
  - pose proof (proj2 (proj2 (buscarPorId_outcomes HistoricoFinanceiro
                                (mkCtx ∅ 2 None) w2))
                  (sample_row 2 8 "def" false)) as H.
    unfold answer. rewrite H.
    + reflexivity.
    + unfold served. simpl. constructor.
    + reflexivity.
Defined.

(** ** The catch-all boundary *)

Section Boundary.

Variable validate : entity -> gmap string value -> result (value * value).

Lemma handle_try_block op e ctx :
  handle validate op e ctx = try_catch (try_block validate op e ctx) send_error.
Proof. now destruct op. Qed.

(** C2.  Whatever a controller operation of any entity throws inside its
    [try] block, whether a validation failure, the store's not-found error,
    the empty-result exception or anything else, the operation answers HTTP
    500 with the body [{status: false, message: error}], [error] being the
    thrown value itself; the code does not depend on the kind of error. *)
Theorem catch_all_answers_500 (op : operation) (e : entity)
    (ctx : HttpContext) (w w' : world) (err : error) :
  try_block validate op e ctx w = (Throw err, w') ->
  handle validate op e ctx w
  = (Ok (mkResponse 500 (mkEnvelope false (Raw err) None)), w').
Proof.
  intros H. rewrite handle_try_block.
  now rewrite (try_catch_throw _ _ _ _ _ H).
Qed.

End Boundary.

Lemma catch_all_answers_500_witness :
  handle sample_validate Cadastrar ArquivoAssociado (mkCtx ∅ 0 None) w1
  = (Ok (mkResponse 500
           (mkEnvelope false
              (Raw (ValidationFailure "E_VALIDATION_FAILURE")) None)),
     w1).
Proof.
  apply (catch_all_answers_500 sample_validate Cadastrar ArquivoAssociado
           (mkCtx ∅ 0 None) w1 w1 (ValidationFailure "E_VALIDATION_FAILURE")).
  reflexivity.
Defined.

(** Each kind of failure does reach the boundary. *)
Example throws_validation_failure :
  fst (try_block sample_validate Atualizar HistoricoFinanceiro
         (mkCtx ∅ 1 None) w1)
  = Throw (ValidationFailure "E_VALIDATION_FAILURE").
Proof. reflexivity. Qed.

Example throws_row_not_found :
  fst (try_block sample_validate Ativar HistoricoFinanceiro
         (mkCtx ∅ 5 None) w1)
  = Throw RowNotFound.
Proof. reflexivity. Qed.

Example throws_empty_result :
  fst (try_block sample_validate BuscarAtivos HistoricoFinanceiro
         (mkCtx ∅ 0 None)
         (mkWorld [sample_row 2 8 "def" false] []))
  = Throw empty_result.
Proof. reflexivity. Qed.

Example throws_store_fault :
  fst (try_block sample_validate BuscarTodos HistoricoFinanceiro
         (mkCtx ∅ 0 None)
         (mkWorld [sample_row 1 7 "abc" true]
            [Some (OtherError "ECONNREFUSED")]))
  = Throw (OtherError "ECONNREFUSED").
Proof. reflexivity. Qed.

Example throws_on_second_round_trip :
  handle sample_validate Ativar HistoricoFinanceiro (mkCtx ∅ 1 None)
    (mkWorld [sample_row 1 7 "abc" true] [None; Some (OtherError "ETIMEDOUT")])
  = (Ok (mkResponse 500
           (mkEnvelope false (Raw (OtherError "ETIMEDOUT")) None)),
     w1).
Proof. reflexivity. Qed.

(** ** Totality at the public interface *)

Section Totality.

Variable validate : entity -> gmap string value -> result (value * value).

Lemma send_ok_success c m d w resp w' :
  c = 200 \/ c = 201 ->
  send_ok c m d w = (Ok resp, w') -> success resp.
Proof.
  intros Hc H. injection H as <- _. unfold success. simpl. eauto.
Qed.

Lemma listing_success (l : list object) w resp w' :
  (if Z.of_nat (length l) <=? 0
   then throw empty_result
   else send_ok 200 "Registros retornados com sucesso" (PList l)) w
  = (Ok resp, w') ->
  success resp.
Proof.
  destruct (Z.of_nat (length l) <=? 0); [discriminate|].
  apply send_ok_success. now left.
Qed.

(** A [try] block that completes has sent a success envelope. *)
Lemma try_block_success op e ctx w resp w' :
  try_block validate op e ctx w = (Ok resp, w') -> success resp.
Proof.
  destruct op; simpl; intros H.
  - unfold cadastrar_body in H.
    apply bind_ok_inv in H as ([fk doc] & w1 & _ & H).
    apply bind_ok_inv in H as (h & w2 & _ & H).
    revert H. apply send_ok_success. now right.
  - unfold atualizar_body in H.
    apply bind_ok_inv in H as (h & w1 & _ & H).
    apply bind_ok_inv in H as ([fk doc] & w2 & _ & H).
    apply bind_ok_inv in H as (u & w3 & _ & H).
    revert H. apply send_ok_success. now left.
  - unfold ativar_body in H.
    apply bind_ok_inv in H as (h & w1 & _ & H).
    apply bind_ok_inv in H as (u & w2 & _ & H).
    revert H. apply send_ok_success. now left.
  - unfold buscarTodos_body in H.
    apply bind_ok_inv in H as (l & w1 & _ & H).
    revert H. apply listing_success.
  - unfold buscarAtivos_body in H.
    apply bind_ok_inv in H as (l & w1 & _ & H).
    revert H. apply listing_success.
  - unfold buscarPorId_body in H.
    apply bind_ok_inv in H as (h & w1 & _ & H).
    revert H. apply send_ok_success. now left.
Qed.

(** C10.  Every controller operation of every entity, on every input and
    whatever the validator and the store do, returns one response and throws
    nothing: either a success envelope ([status] true, a text message) with
    code 200 or 201, or the failure envelope ([status] false, the caught error
    as message) with code 500.  The code is never 404, although the list
    operations do build a 404-coded exception. *)
Theorem handle_total (op : operation) (e : entity) (ctx : HttpContext)
    (w : world) :
  (exists resp w',
     handle validate op e ctx w = (Ok resp, w')
     /\ (success resp \/ failure resp)
     /\ (http_status resp = 200 \/ http_status resp = 201
         \/ http_status resp = 500)
     /\ http_status resp <> 404)
  /\ exists e0 ctx0 w0 w0',
       try_block validate BuscarTodos e0 ctx0 w0
       = (Throw (CustomErrorException "Nenhum registro encontrado" 404), w0')
       /\ answer (handle validate BuscarTodos e0 ctx0 w0)
          = Some (500, false,
                  Raw (CustomErrorException "Nenhum registro encontrado" 404)).
Proof.
  split.
  - rewrite handle_try_block. unfold try_catch.
    destruct (try_block validate op e ctx w) as [[resp|err] w'] eqn:E.
    + exists resp, w'. split; [reflexivity|].
      destruct (try_block_success _ _ _ _ _ _ E) as (Hs & Hc & Hm).
      split; [left; now repeat split|].
      split; [destruct Hc; auto|].
      destruct Hc as [-> | ->]; discriminate.
    + exists (mkResponse 500 (mkEnvelope false (Raw err) None)), w'.
      split; [reflexivity|]. split.
      * right. unfold failure. simpl. eauto.
      * split; [auto | discriminate].
  - exists HistoricoFinanceiro, (mkCtx ∅ 0 None), (mkWorld [] []),
      (mkWorld [] []).
    split; reflexivity.
Qed.

End Totality.

(** * Further properties of the controllers *)

(** ** Listing *)

Lemma buscarTodos_lists_all_closed e ctx w :
  served 1 w ->
  rows w <> [] ->
  buscarTodos e ctx w
  = (Ok (mkResponse 200
           (mkEnvelope true (Text "Registros retornados com sucesso")
              (Some (PList (map instance (rows w)))))),
     advance 1 w).
Proof.
  intros Hs Hne. unfold buscarTodos. apply try_catch_ok.
  unfold buscarTodos_body.
  rewrite (bind_ok _ _ _ _ _ (query_served w Hs)).
  rewrite length_test_nonempty; [reflexivity|].
  intros H. now apply map_instance_nil in H.
Qed.

(** X1.  With the store answering and at least one row in the table, a
    list-all call answers HTTP 200 with the message "Registros retornados com
    sucesso" and every row of the table, unfiltered and in table order. *)
Theorem buscarTodos_lists_all (e : entity) (ctx : HttpContext) (w : world) :
  served 1 w ->
  rows w <> [] ->
  buscarTodos e ctx w
  = (Ok (mkResponse 200
           (mkEnvelope true (Text "Registros retornados com sucesso")
              (Some (PList (map instance (rows w)))))),
     advance 1 w).
Proof. apply buscarTodos_lists_all_closed. Qed.

Lemma buscarTodos_lists_all_witness :
  fst (buscarTodos ArquivoAssociado (mkCtx ∅ 0 None) w2)
  = Ok (mkResponse 200
          (mkEnvelope true (Text "Registros retornados com sucesso")
             (Some (PList [instance (sample_row 1 7 "abc" true);
                           instance (sample_row 2 8 "def" false)])))).
Proof.
  rewrite (buscarTodos_lists_all ArquivoAssociado (mkCtx ∅ 0 None) w2).
  - reflexivity.
  - unfold served. simpl. constructor.
  - discriminate.
Defined.

Lemma listing_rows e ctx w :
  rows (snd (buscarTodos e ctx w)) = rows w
  /\ rows (snd (buscarAtivos e ctx w)) = rows w.
Proof.
  unfold buscarTodos, buscarAtivos, try_catch, buscarTodos_body,
    buscarAtivos_body, query, query_where_ativo, bind, round_trip.
  destruct w as [t [|[err|] fs]]; simpl; split;
    match goal with
    | |- context [Z.of_nat ?n <=? 0] => destruct (Z.of_nat n <=? 0)
    | _ => idtac
    end; reflexivity.
Qed.

(** X2.  The two list operations only read: whatever the store does, the
    table after a list-all or a list-active call is the table before it. *)
Theorem listing_reads_only (e : entity) (ctx : HttpContext) (w : world) :
  rows (snd (buscarTodos e ctx w)) = rows w
  /\ rows (snd (buscarAtivos e ctx w)) = rows w.
Proof. apply listing_rows. Qed.

Lemma sublist_filter_instance (t : list (gmap string value)) :
  sublist (map instance (List.filter is_ativo t)) (map instance t).
Proof.
  induction t as [|r t IH]; simpl; [constructor|].
  destruct (is_ativo r); simpl; now constructor.
Qed.

(** X3.  Whenever a list-active call sends a list, a list-all call on the same
    world answers 200 with a list that contains it as a sub-list: the same
    records in the same relative order. *)
Theorem buscarAtivos_within_buscarTodos (e : entity) (ctx : HttpContext)
    (w : world) (resp : response) (ativos : list object) :
  fst (buscarAtivos e ctx w) = Ok resp ->
  data (body resp) = Some (PList ativos) ->
  exists todos,
    fst (buscarTodos e ctx w)
    = Ok (mkResponse 200
            (mkEnvelope true (Text "Registros retornados com sucesso")
               (Some (PList todos))))
    /\ sublist ativos todos
    /\ length todos = length (rows w).
Proof.
  intros Hr Hd. exists (map instance (rows w)).
  pose proof (buscarAtivos_data e ctx w resp ativos Hr Hd) as ->.
  split; [|split; [apply sublist_filter_instance | apply length_map]].
  assert (Hne : rows w <> []).
  { intros Hnil. revert Hr Hd.
    unfold buscarAtivos, try_catch, buscarAtivos_body, query_where_ativo, bind,
      round_trip.
    rewrite Hnil. destruct (faults w) as [|[err|] fs]; simpl;
      intros H; injection H as <-; discriminate. }
  assert (Hs : served 1 w).
  { unfold served. revert Hr Hd.
    unfold buscarAtivos, try_catch, buscarAtivos_body, query_where_ativo, bind,
      round_trip.
    destruct (faults w) as [|[err|] fs]; simpl.
    - intros _ _. constructor.
    - intros H; injection H as <-; discriminate.
    - intros _ _. now repeat constructor. }
  now rewrite (buscarTodos_lists_all_closed e ctx w Hs Hne).
Qed.

Lemma buscarAtivos_within_buscarTodos_witness :
  exists todos,
    fst (buscarTodos HistoricoFinanceiro (mkCtx ∅ 0 None) w2)
    = Ok (mkResponse 200
            (mkEnvelope true (Text "Registros retornados com sucesso")
               (Some (PList todos))))
    /\ sublist [instance (sample_row 1 7 "abc" true)] todos
    /\ length todos = 2%nat.
Proof.
  apply (buscarAtivos_within_buscarTodos HistoricoFinanceiro (mkCtx ∅ 0 None)
           w2
           (mkResponse 200
              (mkEnvelope true (Text "Registros retornados com sucesso")
                 (Some (PList [instance (sample_row 1 7 "abc" true)]))))).
  - reflexivity.
  - reflexivity.
Defined.

(** ** Errors and their order *)

Section Errors.

Variable validate : entity -> gmap string value -> result (value * value).

(** X4.  A create call whose body the validator rejects answers HTTP 500 with
    the validator's error as message and never reaches the store: no row is
    inserted and no round-trip is made, even when the store is failing. *)
Theorem cadastrar_rejected_body (e : entity) (ctx : HttpContext) (w : world)
    (err : error) :
  validate e (request_body ctx) = Throw err ->
  cadastrar validate e ctx w
  = (Ok (mkResponse 500 (mkEnvelope false (Raw err) None)), w).
Proof.
  intros Hv. unfold cadastrar, try_catch, cadastrar_body, lift, bind.
  now rewrite Hv.
Qed.

Lemma cadastrar_outcome (e : entity) (ctx : HttpContext) (w : world) :
  (exists historico,
     fst (cadastrar validate e ctx w)
     = Ok (mkResponse 201
             (mkEnvelope true (Text "Registro cadastrado com sucesso!")
                (Some (PRecord historico))))
     /\ rows (snd (cadastrar validate e ctx w))
        = (rows w ++ [own historico])%list)
  \/ (exists err,
        fst (cadastrar validate e ctx w)
        = Ok (mkResponse 500 (mkEnvelope false (Raw err) None))
        /\ rows (snd (cadastrar validate e ctx w)) = rows w).
Proof.
  unfold cadastrar, try_catch, cadastrar_body, lift, create, bind, round_trip.
  destruct (validate e (request_body ctx)) as [[fk doc]|err].
  - destruct w as [t [|[err|] fs]]; simpl; eauto.
  - right. simpl. eauto.
Qed.

(** X5.  A create call is all or nothing on the table: either it answers 201
    and the table has grown by exactly the record it returns, appended last,
    or it answers 500 and the table is as it was. *)
Theorem cadastrar_all_or_nothing (e : entity) (ctx : HttpContext) (w : world) :
  (exists historico,
     fst (cadastrar validate e ctx w)
     = Ok (mkResponse 201
             (mkEnvelope true (Text "Registro cadastrado com sucesso!")
                (Some (PRecord historico))))
     /\ rows (snd (cadastrar validate e ctx w))
        = (rows w ++ [own historico])%list)
  \/ (exists err,
        fst (cadastrar validate e ctx w)
        = Ok (mkResponse 500 (mkEnvelope false (Raw err) None))
        /\ rows (snd (cadastrar validate e ctx w)) = rows w).
Proof. apply cadastrar_outcome. Qed.

(** X6.  In an update call the lookup comes before the validation: for an
    identifier that names no record the response carries the store's
    not-found error whatever the body is, and the validator's error is
    reported only when the record exists. *)
Theorem atualizar_error_order (e : entity) (ctx : HttpContext) (w : world) :
  served 1 w ->
  (List.find (has_id (VNum (params_id ctx))) (rows w) = None ->
   atualizar validate e ctx w
   = (Ok (mkResponse 500 (mkEnvelope false (Raw RowNotFound) None)),
      advance 1 w))
  /\ (forall r err,
        List.find (has_id (VNum (params_id ctx))) (rows w) = Some r ->
        validate e (request_body ctx) = Throw err ->
        atualizar validate e ctx w
        = (Ok (mkResponse 500 (mkEnvelope false (Raw err) None)),
           advance 1 w)).
Proof.
  intros Hs. split.
  - intros Hf. unfold atualizar.
    rewrite (try_catch_throw _ _ w RowNotFound (advance 1 w)); [reflexivity|].
    unfold atualizar_body.
    now rewrite (bind_throw _ _ _ _ _ (findOrFail_missing _ _ Hs Hf)).
  - intros r err Hf Hv. unfold atualizar.
    rewrite (try_catch_throw _ _ w err (advance 1 w)); [reflexivity|].
    unfold atualizar_body.
    rewrite (bind_ok _ _ _ _ _ (findOrFail_found _ _ _ Hs Hf)).
    unfold lift, bind. now rewrite Hv.
Qed.

(** X7.  When the store fails on its next round-trip, every operation other
    than create answers HTTP 500 with the store's error as message, after that
    single round-trip and with the table unchanged. *)
Theorem store_outage (op : operation) (e : entity) (ctx : HttpContext)
    (w : world) (err : error) (fs : list (option error)) :
  op <> Cadastrar ->
  faults w = Some err :: fs ->
  handle validate op e ctx w
  = (Ok (mkResponse 500 (mkEnvelope false (Raw err) None)),
     mkWorld (rows w) fs).
Proof.
  intros Hop Hf. destruct op; try congruence;
    unfold handle, atualizar, ativar, buscarTodos, buscarAtivos, buscarPorId,
      try_catch, atualizar_body, ativar_body, buscarTodos_body,
      buscarAtivos_body, buscarPorId_body, findOrFail, query,
      query_where_ativo, bind, round_trip;
    now rewrite Hf.
Qed.

(** X8.  The payload follows the outcome and the operation: a failure
    response carries no data; a success response always carries data, a
    non-empty list for the two list operations and a single record for the
    other four. *)
Theorem data_matches_operation (op : operation) (e : entity)
    (ctx : HttpContext) (w w' : world) (resp : response) :
  handle validate op e ctx w = (Ok resp, w') ->
  match data (body resp) with
  | None => status (body resp) = false
  | Some (PList l) =>
      status (body resp) = true /\ is_listing op = true /\ l <> []
  | Some (PRecord _) => status (body resp) = true /\ is_listing op = false
  end.
Proof.
  rewrite handle_try_block. unfold try_catch.
  destruct (try_block validate op e ctx w) as [[resp0|err] w0] eqn:E.
  - intros H. injection H as <- <-. destruct op; simpl in E.
    + unfold cadastrar_body in E.
      apply bind_ok_inv in E as ([fk doc] & w1 & _ & E).
      apply bind_ok_inv in E as (h & w2 & _ & E).
      injection E as <- _. now split.
    + unfold atualizar_body in E.
      apply bind_ok_inv in E as (h & w1 & _ & E).
      apply bind_ok_inv in E as ([fk doc] & w2 & _ & E).
      apply bind_ok_inv in E as (u & w3 & _ & E).
      injection E as <- _. now split.
    + unfold ativar_body in E.
      apply bind_ok_inv in E as (h & w1 & _ & E).
      apply bind_ok_inv in E as (u & w2 & _ & E).
      injection E as <- _. now split.
    + unfold buscarTodos_body in E.
      apply bind_ok_inv in E as (l & w1 & _ & E).
      destruct (Z.of_nat (length l) <=? 0) eqn:El; [discriminate|].
      injection E as <- _. simpl. repeat split.
      intros ->. discriminate.
    + unfold buscarAtivos_body in E.
      apply bind_ok_inv in E as (l & w1 & _ & E).
      destruct (Z.of_nat (length l) <=? 0) eqn:El; [discriminate|].
      injection E as <- _. simpl. repeat split.
      intros ->. discriminate.
    + unfold buscarPorId_body in E.
      apply bind_ok_inv in E as (h & w1 & _ & E).
      injection E as <- _. now split.
  - intros H. injection H as <- _. reflexivity.
Qed.

End Errors.

Lemma cadastrar_rejected_body_witness :
  cadastrar sample_validate HistoricoAssociado
    (mkCtx (sample_body 7 "abc") 0 ana)
    (mkWorld [] [Some (OtherError "ECONNREFUSED")])
  = (Ok (mkResponse 500
           (mkEnvelope false
              (Raw (ValidationFailure "E_VALIDATION_FAILURE")) None)),
     mkWorld [] [Some (OtherError "ECONNREFUSED")]).
Proof.
  apply (cadastrar_rejected_body sample_validate HistoricoAssociado).
  reflexivity.
Defined.

Lemma atualizar_error_order_witness :
  answer (atualizar sample_validate HistoricoFinanceiro (mkCtx ∅ 9 ana) w1)
  = Some (500, false, Raw RowNotFound)
  /\ answer (atualizar sample_validate HistoricoFinanceiro (mkCtx ∅ 1 ana) w1)
     = Some (500, false, Raw (ValidationFailure "E_VALIDATION_FAILURE")).
Proof.
  split.
  - rewrite (proj1 (atualizar_error_order sample_validate HistoricoFinanceiro
                      (mkCtx ∅ 9 ana) w1 ltac:(unfold served; simpl; constructor))
               eq_refl).
    reflexivity.
  - rewrite (proj2 (atualizar_error_order sample_validate HistoricoFinanceiro
                      (mkCtx ∅ 1 ana) w1 ltac:(unfold served; simpl; constructor))
               (sample_row 1 7 "abc" true)
               (ValidationFailure "E_VALIDATION_FAILURE") eq_refl eq_refl).
    reflexivity.
Defined.

Lemma store_outage_witness :
  handle sample_validate BuscarPorId HistoricoFinanceiro (mkCtx ∅ 1 ana)
    (mkWorld [sample_row 1 7 "abc" true] [Some (OtherError "ECONNREFUSED")])
  = (Ok (mkResponse 500
           (mkEnvelope false (Raw (OtherError "ECONNREFUSED")) None)),
     w1).
Proof.
  apply (store_outage sample_validate BuscarPorId HistoricoFinanceiro
           (mkCtx ∅ 1 ana)
           (mkWorld [sample_row 1 7 "abc" true]
              [Some (OtherError "ECONNREFUSED")])
           (OtherError "ECONNREFUSED") []).
  - discriminate.
  - reflexivity.
Defined.

Lemma data_matches_operation_witness :
  is_listing BuscarTodos = true
  /\ [instance (sample_row 1 7 "abc" true)] <> [].
Proof.
  exact (proj2 (data_matches_operation sample_validate BuscarTodos
                  HistoricoFinanceiro (mkCtx ∅ 0 None) w1 w1
                  (mkResponse 200
                     (mkEnvelope true (Text "Registros retornados com sucesso")
                        (Some (PList [instance (sample_row 1 7 "abc" true)]))))
                  eq_refl)).
Defined.

(** ** Toggle: atomicity, invariants and composition *)

Lemma ids_write_back o t : ids (write_back o t) = ids t.
Proof.
  unfold ids, write_back. induction t as [|r t IH]; simpl; [reflexivity|].
  rewrite IH. f_equal. case_bool_decide; congruence.
Qed.

Lemma ativar_outcome (e : entity) (ctx : HttpContext) (w : world) :
  (exists r msg,
     List.find (has_id (VNum (params_id ctx))) (rows w) = Some r
     /\ fst (ativar e ctx w)
        = Ok (mkResponse 200
                (mkEnvelope true (Text msg) (Some (PRecord (toggled ctx r)))))
     /\ rows (snd (ativar e ctx w)) = write_back (toggled ctx r) (rows w))
  \/ (exists err,
        fst (ativar e ctx w)
        = Ok (mkResponse 500 (mkEnvelope false (Raw err) None))
        /\ rows (snd (ativar e ctx w)) = rows w).
Proof.
  unfold ativar, try_catch, ativar_body, findOrFail, call_save, save, bind,
    round_trip.
  destruct w as [t fs]. cbn [rows faults].
  destruct fs as [|[e1|] fs]; cbn [rows faults tail fst snd];
    try (right; eexists; split; reflexivity);
    destruct (List.find (has_id (VNum (params_id ctx))) t) as [r|] eqn:Hf;
    cbn [rows faults tail fst snd proto assign instance];
    try (right; eexists; split; reflexivity).
  - left. exists r. eexists. repeat split; reflexivity.
  - destruct fs as [|[e2|] fs]; cbn [rows faults tail fst snd].
    + left. exists r. eexists. repeat split; reflexivity.
    + right. eexists. split; reflexivity.
    + left. exists r. eexists. repeat split; reflexivity.
Qed.

(** X9.  A toggle call is all or nothing on the table: either it found the
    record, answers 200 with the toggled record, and the table is the old one
    with that record written back, or it answers 500 and the table is as it
    was; in particular a failed save leaves the stored [ativo] untouched. *)
Theorem ativar_all_or_nothing (e : entity) (ctx : HttpContext) (w : world) :
  (exists r msg,
     List.find (has_id (VNum (params_id ctx))) (rows w) = Some r
     /\ fst (ativar e ctx w)
        = Ok (mkResponse 200
                (mkEnvelope true (Text msg) (Some (PRecord (toggled ctx r)))))
     /\ rows (snd (ativar e ctx w)) = write_back (toggled ctx r) (rows w))
  \/ (exists err,
        fst (ativar e ctx w)
        = Ok (mkResponse 500 (mkEnvelope false (Raw err) None))
        /\ rows (snd (ativar e ctx w)) = rows w).
Proof. apply ativar_outcome. Qed.

(** X10.  A toggle call never adds, removes or renumbers rows: the [id]
    column of the table, row by row, is the same after the call as before,
    whatever the outcome. *)
Theorem ativar_keeps_ids (e : entity) (ctx : HttpContext) (w : world) :
  ids (rows (snd (ativar e ctx w))) = ids (rows w)
  /\ length (rows (snd (ativar e ctx w))) = length (rows w).
Proof.
  assert (H : ids (rows (snd (ativar e ctx w))) = ids (rows w)).
  { destruct (ativar_outcome e ctx w)
      as [(r & msg & _ & _ & ->) | (err & _ & ->)];
      [apply ids_write_back | reflexivity]. }
  split; [exact H|].
  apply (f_equal length) in H. unfold ids in H. now rewrite !length_map in H.
Qed.

Lemma buscarPorId_found e ctx w r :
  served 1 w ->
  List.find (has_id (VNum (params_id ctx))) (rows w) = Some r ->
  buscarPorId e ctx w
  = (Ok (mkResponse 200
           (mkEnvelope true (Text "Registro retornado com sucesso")
              (Some (PRecord (instance r))))),
     advance 1 w).
Proof.
  intros Hs Hf. unfold buscarPorId. apply try_catch_ok.
  unfold buscarPorId_body.
  now rewrite (bind_ok _ _ _ _ _ (findOrFail_found _ _ _ Hs Hf)).
Qed.

(** X11.  Toggle then get-by-id: with the store answering, a get-by-id call
    that follows a toggle of the same identifier answers 200 with exactly the
    record the toggle returned. *)
Theorem ativar_then_buscarPorId (e : entity) (ctx ctx' : HttpContext)
    (w : world) (r : gmap string value) :
  served 3 w ->
  params_id ctx' = params_id ctx ->
  List.find (has_id (VNum (params_id ctx))) (rows w) = Some r ->
  exists historico msg,
    fst (ativar e ctx w)
    = Ok (mkResponse 200
            (mkEnvelope true (Text msg) (Some (PRecord historico))))
    /\ fst (buscarPorId e ctx' (snd (ativar e ctx w)))
       = Ok (mkResponse 200
               (mkEnvelope true (Text "Registro retornado com sucesso")
                  (Some (PRecord historico)))).
Proof.
  intros Hs Hid Hf. exists (toggled ctx r). eexists.
  rewrite (ativar_found e ctx w r (served_le 2 3 w ltac:(lia) Hs) Hf).
  split; [reflexivity|]. cbn [snd].
  rewrite (buscarPorId_found e ctx' _ (own (toggled ctx r))).
  - reflexivity.
  - now apply (served_drop 1 2 w).
  - cbn [rows]. rewrite Hid.
    apply find_write_back with (r := r); [assumption|].
    rewrite toggled_id. now apply find_has_id in Hf.
Qed.

Lemma ativar_then_buscarPorId_witness :
  exists historico,
    fst (buscarPorId HistoricoFinanceiro (mkCtx ∅ 1 None)
           (snd (ativar HistoricoFinanceiro (mkCtx ∅ 1 ana) w2)))
    = Ok (mkResponse 200
            (mkEnvelope true (Text "Registro retornado com sucesso")
               (Some (PRecord historico))))
    /\ get "ativo" historico = VBool false
    /\ get "updatedBy" historico = VStr "Ana".
Proof.
  destruct (ativar_then_buscarPorId HistoricoFinanceiro (mkCtx ∅ 1 ana)
              (mkCtx ∅ 1 None) w2 (sample_row 1 7 "abc" true))
    as (historico & msg & H1 & H2).
  - unfold served. simpl. constructor.
  - reflexivity.
  - reflexivity.
  - exists historico. split; [exact H2|].
    injection H1 as _ <-. split; reflexivity.
Defined.

(** ** Toggle: truthiness and double toggles *)

(** X12.  The toggle negates the truthiness of [ativo], not only booleans:
    whatever the field of the record found holds (null, nothing, a number),
    the stored field after one toggle is the boolean [!ativo] and after a
    second one the boolean [!!ativo]; a record whose [ativo] is null or
    missing is therefore activated by its first toggle. *)
Theorem ativar_truthiness (e : entity) (ctx1 ctx2 : HttpContext) (w : world)
    (r : gmap string value) :
  served 4 w ->
  params_id ctx2 = params_id ctx1 ->
  List.find (has_id (VNum (params_id ctx1))) (rows w) = Some r ->
  exists r1 r2,
    List.find (has_id (VNum (params_id ctx1))) (rows (snd (ativar e ctx1 w)))
    = Some r1
    /\ r1 !! "ativo" = Some (VBool (negb (truthy (get "ativo" (instance r)))))
    /\ List.find (has_id (VNum (params_id ctx1)))
         (rows (snd (ativar e ctx2 (snd (ativar e ctx1 w))))) = Some r2
    /\ r2 !! "ativo" = Some (VBool (truthy (get "ativo" (instance r)))).
Proof.
  intros Hs Hid Hf.
  exists (own (toggled ctx1 r)), (own (toggled ctx2 (own (toggled ctx1 r)))).
  split; [|split; [|split]].
  - rewrite (ativar_found e ctx1 w r (served_le 2 4 w ltac:(lia) Hs) Hf).
    cbn [snd rows].
    apply find_write_back with (r := r); [assumption|].
    rewrite toggled_id. now apply find_has_id in Hf.
  - apply toggled_ativo_lookup.
  - now apply ativar_twice_found.
  - apply toggled_twice_ativo.
Qed.

Lemma ativar_truthiness_witness :
  exists r1,
    List.find (has_id (VNum 1))
      (rows (snd (ativar HistoricoFinanceiro (mkCtx ∅ 1 ana) w3))) = Some r1
    /\ r1 !! "ativo" = Some (VBool true).
Proof.
  destruct (ativar_truthiness HistoricoFinanceiro (mkCtx ∅ 1 ana)
              (mkCtx ∅ 1 ana) w3
              (<["ativo" := VNull]> (sample_row 1 7 "abc" true)))
    as (r1 & r2 & H1 & H2 & _).
  - unfold served. simpl. constructor.
  - reflexivity.
  - reflexivity.
  - exists r1. split; [exact H1 | exact H2].
Defined.

Lemma toggled_twice_record ctx1 ctx2 r b :
  r !! "ativo" = Some (VBool b) ->
  own (toggled ctx2 (own (toggled ctx1 r)))
  = <["updatedBy" := nullish (user_nome ctx2) VNull]> r.
Proof.
  intros Hb. apply map_eq. intros k.
  unfold toggled, assign, js_not, get. cbn [own instance proto].
  destruct (decide (k = "updatedBy")) as [->|Hu].
  - now rewrite !lookup_insert_eq.
  - rewrite !(lookup_insert_ne _ "updatedBy") by congruence.
    destruct (decide (k = "ativo")) as [->|Ha].
    + rewrite lookup_insert_eq.
      rewrite lookup_insert_eq, Hb. simpl. now rewrite negb_involutive.
    + rewrite !(lookup_insert_ne _ "ativo") by congruence.
      rewrite !(lookup_insert_ne _ "updatedBy") by congruence.
      now rewrite !(lookup_insert_ne _ "ativo") by congruence.
Qed.

(** X13.  Two toggles in a row restore the whole record, not only [ativo]:
    for a record with a boolean [ativo] and a store that answers, the record
    stored after the second toggle is the original one with [updatedBy] set
    to the second caller's name (or null), every other field as before the
    first toggle. *)
Theorem ativar_twice_record (e : entity) (ctx1 ctx2 : HttpContext) (w : world)
    (r : gmap string value) (b : bool) :
  served 4 w ->
  params_id ctx2 = params_id ctx1 ->
  List.find (has_id (VNum (params_id ctx1))) (rows w) = Some r ->
  r !! "ativo" = Some (VBool b) ->
  List.find (has_id (VNum (params_id ctx1)))
    (rows (snd (ativar e ctx2 (snd (ativar e ctx1 w)))))
  = Some (<["updatedBy" := match auth_user ctx2 with
                           | Some u => VStr (nome u)
                           | None => VNull
                           end]> r).
Proof.
  intros Hs Hid Hf Hb.
  rewrite (ativar_twice_found e ctx1 ctx2 w r Hs Hid Hf).
  rewrite (toggled_twice_record ctx1 ctx2 r b Hb).
  unfold user_nome. now destruct (auth_user ctx2).
Qed.

Lemma ativar_twice_record_witness :
  List.find (has_id (VNum 2))
    (rows (snd (ativar HistoricoFinanceiro (mkCtx ∅ 2 None)
                  (snd (ativar HistoricoFinanceiro (mkCtx ∅ 2 ana) w2)))))
  = Some (<["updatedBy" := VNull]> (sample_row 2 8 "def" false)).
Proof.
  apply (ativar_twice_record HistoricoFinanceiro (mkCtx ∅ 2 ana)
           (mkCtx ∅ 2 None) w2 (sample_row 2 8 "def" false) false).
  - unfold served. simpl. constructor.
  - reflexivity.
  - reflexivity.
  - reflexivity.
Defined.

(** X14.  Two toggles in a row answer with the two different messages: on a
    record that was active the first call says "Registro inativado com
    sucesso" and the second "Registro ativado com sucesso", and the other way
    round on a record that was inactive. *)
Theorem ativar_twice_messages (e : entity) (ctx1 ctx2 : HttpContext)
    (w : world) (r : gmap string value) (b : bool) :
  served 4 w ->
  params_id ctx2 = params_id ctx1 ->
  List.find (has_id (VNum (params_id ctx1))) (rows w) = Some r ->
  r !! "ativo" = Some (VBool b) ->
  answer (ativar e ctx1 w)
  = Some (200, true,
          Text (if b then "Registro inativado com sucesso"
                else "Registro ativado com sucesso"))
  /\ answer (ativar e ctx2 (snd (ativar e ctx1 w)))
     = Some (200, true,
             Text (if b then "Registro ativado com sucesso"
                   else "Registro inativado com sucesso")).
Proof.
  intros Hs Hid Hf Hb.
  pose proof (find_has_id _ _ _ Hf) as Hr.
  rewrite (ativar_found e ctx1 w r (served_le 2 4 w ltac:(lia) Hs) Hf).
  cbn [snd]. split.
  - unfold answer. cbn [fst http_status status message body].
    unfold get. rewrite toggled_ativo_lookup. unfold js_not, get.
    cbn [own instance]. rewrite Hb. now destruct b.
  - rewrite (ativar_found e ctx2 _ (own (toggled ctx1 r))).
    + unfold answer. cbn [fst http_status status message body].
      unfold get. rewrite toggled_twice_ativo. unfold get.
      cbn [own instance]. rewrite Hb. now destruct b.
    + now apply (served_drop 2 2 w).
    + cbn [rows]. rewrite Hid.
      apply find_write_back with (r := r); [assumption|].
      now rewrite toggled_id.
Qed.

Lemma ativar_twice_messages_witness :
  answer (ativar HistoricoFinanceiro (mkCtx ∅ 1 ana) w2)
  = Some (200, true, Text "Registro inativado com sucesso")
  /\ answer (ativar HistoricoFinanceiro (mkCtx ∅ 1 ana)
               (snd (ativar HistoricoFinanceiro (mkCtx ∅ 1 ana) w2)))
     = Some (200, true, Text "Registro ativado com sucesso").
Proof.
  apply (ativar_twice_messages HistoricoFinanceiro (mkCtx ∅ 1 ana)
           (mkCtx ∅ 1 ana) w2 (sample_row 1 7 "abc" true) true).
  - unfold served. simpl. constructor.
  - reflexivity.
  - reflexivity.
  - reflexivity.
Defined.

(** ** Update never succeeds *)

Section UpdateOutcome.

Variable validate : entity -> gmap string value -> result (value * value).

(** X15.  No update call answers 200 and none writes to the table: for every
    entity, context, validator and store the response is the HTTP 500 failure
    envelope and the table is unchanged; when the record exists, the body is
    accepted and the store answers, the error reported is the [TypeError] of
    calling [save] on the object built by the spread. *)
Theorem atualizar_never_succeeds (e : entity) (ctx : HttpContext) (w : world) :
  (exists err,
     fst (atualizar validate e ctx w)
     = Ok (mkResponse 500 (mkEnvelope false (Raw err) None)))
  /\ rows (snd (atualizar validate e ctx w)) = rows w
  /\ (forall r fk doc,
        served 1 w ->
        List.find (has_id (VNum (params_id ctx))) (rows w) = Some r ->
        validate e (request_body ctx) = Ok (fk, doc) ->
        fst (atualizar validate e ctx w)
        = Ok (mkResponse 500
                (mkEnvelope false
                   (Raw (TypeError (var_name e +:+ ".save is not a function")))
                   None))).
Proof.
  destruct (atualizar_inert validate e ctx w) as [Hrows Herr].
  split; [exact Herr|]. split; [exact Hrows|].
  intros r fk doc Hs Hf Hv.
  now rewrite (atualizar_found validate e ctx w r fk doc Hs Hf Hv).
Qed.

End UpdateOutcome.

Lemma atualizar_never_succeeds_witness :
  fst (atualizar sample_validate ArquivoAssociado
         (mkCtx (<["associadoId" := VNum 4]> (sample_body 9 "xyz")) 2 ana) w2)
  = Ok (mkResponse 500
          (mkEnvelope false
             (Raw (TypeError "arquivo.save is not a function")) None)).
Proof.
  apply (proj2 (proj2 (atualizar_never_succeeds sample_validate
                         ArquivoAssociado
                         (mkCtx (<["associadoId" := VNum 4]>
                                   (sample_body 9 "xyz")) 2 ana) w2))
           (sample_row 2 8 "def" false) (VNum 4) (VStr "xyz")).
  - unfold served. simpl. constructor.
  - reflexivity.
  - reflexivity.
Defined.

(** ** Create: fresh identifiers and composition *)

Lemma id_of_le_max t r :
  In r t -> id_of r <= foldr (fun r m => Z.max (id_of r) m) 0 t.
Proof.
  induction t as [|a t IH]; cbn [foldr In]; [intros []|].
  intros [-> | Hin]; [lia|]. specialize (IH Hin). lia.
Qed.

(** The identifier the table hands out is the [id] of none of its rows. *)
Lemma next_id_fresh t r : In r t -> r !! "id" <> Some (VNum (next_id t)).
Proof.
  intros Hin Hr. pose proof (id_of_le_max t r Hin) as Hle.
  unfold next_id in Hr. unfold id_of at 1 in Hle. rewrite Hr in Hle. lia.
Qed.

Lemma find_app_fresh t r :
  r !! "id" = Some (VNum (next_id t)) ->
  List.find (has_id (VNum (next_id t))) (t ++ [r])%list = Some r.
Proof.
  intros Hr.
  assert (H : forall n t0,
             (forall r0, In r0 t0 -> r0 !! "id" <> Some (VNum n)) ->
             r !! "id" = Some (VNum n) ->
             List.find (has_id (VNum n)) (t0 ++ [r])%list = Some r).
  { intros n t0. induction t0 as [|a t0 IH]; simpl; intros Hfresh Hn.
    - unfold has_id. now rewrite bool_decide_eq_true_2.
    - unfold has_id at 1.
      rewrite bool_decide_eq_false_2 by (apply Hfresh; now left).
      apply IH; [|assumption]. intros r0 Hin. apply Hfresh. now right. }
  apply H; [|assumption]. intros r0. apply next_id_fresh.
Qed.

Lemma created_id e fk doc ctx t :
  created e fk doc ctx t !! "id" = Some (VNum (next_id t)).
Proof. unfold created. apply lookup_insert_eq. Qed.

Section CreateComposition.

Variable validate : entity -> gmap string value -> result (value * value).

Lemma cadastrar_served e ctx w fk doc :
  served 1 w ->
  validate e (request_body ctx) = Ok (fk, doc) ->
  cadastrar validate e ctx w
  = (Ok (mkResponse 201
           (mkEnvelope true (Text "Registro cadastrado com sucesso!")
              (Some (PRecord (instance (created e fk doc ctx (rows w))))))),
     mkWorld (rows w ++ [created e fk doc ctx (rows w)])%list
       (drop 1 (faults w))).
Proof.
  intros Hs Hv. unfold cadastrar. apply try_catch_ok. unfold cadastrar_body.
  unfold lift, bind at 1. rewrite Hv.
  now rewrite (bind_ok _ _ _ _ _ (create_served e fk doc ctx w Hs)).
Qed.

(** X16.  Create then get-by-id: with the store answering, the record a
    create call returns carries an identifier that no earlier row has, and a
    get-by-id call with that identifier answers 200 with exactly that
    record. *)
Theorem cadastrar_then_buscarPorId (e : entity) (ctx : HttpContext)
    (w : world) (fk doc : value) :
  served 2 w ->
  validate e (request_body ctx) = Ok (fk, doc) ->
  exists historico id,
    fst (cadastrar validate e ctx w)
    = Ok (mkResponse 201
            (mkEnvelope true (Text "Registro cadastrado com sucesso!")
               (Some (PRecord historico))))
    /\ get "id" historico = VNum id
    /\ (forall r, In r (rows w) -> r !! "id" <> Some (VNum id))
    /\ forall ctx',
         params_id ctx' = id ->
         fst (buscarPorId e ctx' (snd (cadastrar validate e ctx w)))
         = Ok (mkResponse 200
                 (mkEnvelope true (Text "Registro retornado com sucesso")
                    (Some (PRecord historico)))).
Proof.
  intros Hs Hv.
  exists (instance (created e fk doc ctx (rows w))), (next_id (rows w)).
  rewrite (cadastrar_served e ctx w fk doc (served_le 1 2 w ltac:(lia) Hs) Hv).
  cbn [fst snd]. split; [reflexivity|]. split; [|split].
  - unfold get. cbn [own instance]. now rewrite created_id.
  - intros r. apply next_id_fresh.
  - intros ctx' Hid.
    rewrite (buscarPorId_found e ctx' _ (created e fk doc ctx (rows w))).
    + reflexivity.
    + now apply (served_drop 1 1 w).
    + cbn [rows]. rewrite Hid. apply find_app_fresh, created_id.
Qed.

(** X17.  Create then list-all: with the store answering, a list-all call
    that follows a successful create never takes the empty-result path; it
    answers 200 with the earlier rows followed by the record just created. *)
Theorem cadastrar_then_buscarTodos (e : entity) (ctx ctx' : HttpContext)
    (w : world) (fk doc : value) :
  served 2 w ->
  validate e (request_body ctx) = Ok (fk, doc) ->
  exists historico,
    fst (cadastrar validate e ctx w)
    = Ok (mkResponse 201
            (mkEnvelope true (Text "Registro cadastrado com sucesso!")
               (Some (PRecord historico))))
    /\ fst (buscarTodos e ctx' (snd (cadastrar validate e ctx w)))
       = Ok (mkResponse 200
               (mkEnvelope true (Text "Registros retornados com sucesso")
                  (Some (PList (map instance (rows w) ++ [historico])%list)))).
Proof.
  intros Hs Hv. exists (instance (created e fk doc ctx (rows w))).
  rewrite (cadastrar_served e ctx w fk doc (served_le 1 2 w ltac:(lia) Hs) Hv).
  cbn [fst snd]. split; [reflexivity|].
  rewrite buscarTodos_lists_all_closed.
  - cbn [fst rows]. now rewrite map_app.
  - now apply (served_drop 1 1 w).
  - cbn [rows]. intros H. now apply app_eq_nil in H as [_ H].
Qed.

End CreateComposition.

Lemma cadastrar_then_buscarPorId_witness :
  exists historico,
    fst (buscarPorId HistoricoFinanceiro (mkCtx ∅ 3 None)
           (snd (cadastrar sample_validate HistoricoFinanceiro
                   (mkCtx (sample_body 5 "ghi") 0 ana) w2)))
    = Ok (mkResponse 200
            (mkEnvelope true (Text "Registro retornado com sucesso")
               (Some (PRecord historico))))
    /\ get "id" historico = VNum 3.
Proof.
  destruct (cadastrar_then_buscarPorId sample_validate HistoricoFinanceiro
              (mkCtx (sample_body 5 "ghi") 0 ana) w2 (VNum 5) (VStr "ghi"))
    as (historico & id & H1 & Hid & _ & H2).
  - unfold served. simpl. constructor.
  - reflexivity.
  - exists historico.
    injection H1 as <-. split; [|reflexivity].
    apply H2. injection Hid as <-. reflexivity.
Defined.

Lemma cadastrar_then_buscarTodos_witness :
  exists historico,
    fst (buscarTodos HistoricoFinanceiro (mkCtx ∅ 0 None)
           (snd (cadastrar sample_validate HistoricoFinanceiro
                   (mkCtx (sample_body 5 "ghi") 0 ana) (mkWorld [] []))))
    = Ok (mkResponse 200
            (mkEnvelope true (Text "Registros retornados com sucesso")
               (Some (PList [historico])))).
Proof.
  destruct (cadastrar_then_buscarTodos sample_validate HistoricoFinanceiro
              (mkCtx (sample_body 5 "ghi") 0 ana) (mkCtx ∅ 0 None)
              (mkWorld [] []) (VNum 5) (VStr "ghi"))
    as (historico & _ & H).
  - unfold served. simpl. constructor.
  - reflexivity.
  - exists historico. exact H.
Defined.

(** ** Identifiers stay distinct *)

Lemma buscarPorId_rows e ctx w : rows (snd (buscarPorId e ctx w)) = rows w.
Proof.
  unfold buscarPorId, try_catch, buscarPorId_body, findOrFail, bind,
    round_trip.
  destruct w as [t [|[err|] fs]]; simpl;
    try destruct (List.find _ t); reflexivity.
Qed.

Lemma ids_snoc_fresh t r :
  r !! "id" = Some (VNum (next_id t)) ->
  NoDup (ids t) -> NoDup (ids (t ++ [r])).
Proof.
  intros Hr Hnd. unfold ids in *. rewrite map_app. apply NoDup_app.
  split; [assumption|]. split; [|apply NoDup_singleton].
  intros x Hx Hx'. apply list_elem_of_singleton in Hx'. subst x.
  apply list_elem_of_In, in_map_iff in Hx as (r0 & Hr0 & Hin).
  rewrite Hr in Hr0. now apply (next_id_fresh t r0).
Qed.

Section Invariant.

Variable validate : entity -> gmap string value -> result (value * value).

Lemma cadastrar_rows e ctx w :
  rows (snd (cadastrar validate e ctx w)) = rows w
  \/ exists fk doc,
       rows (snd (cadastrar validate e ctx w))
       = (rows w ++ [created e fk doc ctx (rows w)])%list.
Proof.
  unfold cadastrar, try_catch, cadastrar_body, lift, bind.
  destruct (validate e (request_body ctx)) as [[fk doc]|err]; [|now left].
  unfold create, bind, round_trip.
  destruct w as [t [|[err|] fs]]; cbn [rows faults tail fst snd];
    try (now left);
    right; exists fk, doc; now rewrite new_fields_no_ativo.
Qed.

(** X18.  No operation breaks the uniqueness of identifiers: if the rows of
    the table have pairwise distinct [id]s before a call, they have pairwise
    distinct [id]s after it, for every operation, entity, input, validator
    and store outcome. *)
Theorem handle_keeps_ids_distinct (op : operation) (e : entity)
    (ctx : HttpContext) (w : world) :
  NoDup (ids (rows w)) ->
  NoDup (ids (rows (snd (handle validate op e ctx w)))).
Proof.
  intros Hnd. destruct op; simpl.
  - destruct (cadastrar_rows e ctx w) as [-> | (fk & doc & ->)];
      [assumption|].
    apply ids_snoc_fresh; [apply created_id | assumption].
  - now rewrite (proj1 (atualizar_inert validate e ctx w)).
  - destruct (ativar_outcome e ctx w)
      as [(r & msg & _ & _ & ->) | (err & _ & ->)];
      [now rewrite ids_write_back | assumption].
  - now rewrite (proj1 (listing_rows e ctx w)).
  - now rewrite (proj2 (listing_rows e ctx w)).
  - now rewrite buscarPorId_rows.
Qed.

End Invariant.

Lemma handle_keeps_ids_distinct_witness :
  NoDup (ids (rows (snd (handle sample_validate Cadastrar HistoricoFinanceiro
                           (mkCtx (sample_body 5 "ghi") 0 ana) w2)))).
Proof.
  apply (handle_keeps_ids_distinct sample_validate Cadastrar
           HistoricoFinanceiro (mkCtx (sample_body 5 "ghi") 0 ana) w2).
  apply (bool_decide_unpack _). vm_compute. exact I.
Defined.

(** ** Toggle on a missing identifier *)

(** X19.  A toggle call whose identifier names no record answers HTTP 500 with
    the store's not-found error as message, after the single round-trip of the
    lookup, and writes nothing. *)
Theorem ativar_missing_id (e : entity) (ctx : HttpContext) (w : world) :
  served 1 w ->
  List.find (has_id (VNum (params_id ctx))) (rows w) = None ->
  ativar e ctx w
  = (Ok (mkResponse 500 (mkEnvelope false (Raw RowNotFound) None)),
     advance 1 w).
Proof.
  intros Hs Hf. unfold ativar.
  rewrite (try_catch_throw _ _ w RowNotFound (advance 1 w)); [reflexivity|].
  unfold ativar_body.
  now rewrite (bind_throw _ _ _ _ _ (findOrFail_missing _ _ Hs Hf)).
Qed.

Lemma ativar_missing_id_witness :
  ativar HistoricoAssociado (mkCtx ∅ 7 ana) w2
  = (Ok (mkResponse 500 (mkEnvelope false (Raw RowNotFound) None)), w2).
Proof.
  apply (ativar_missing_id HistoricoAssociado (mkCtx ∅ 7 ana) w2).
  - unfold served. simpl. constructor.
  - reflexivity.
Defined.
